(** * Cycling Motivator: route-progress computation and progress controller

    A shallow embedding of [src/utils.js] (geodesic distance, route fetcher,
    path sampler), of the state handlers of the [App] component
    ([handleMapClick], [handleMarkerClick], [resetRoute], [startJourney],
    [addDistance]) and of the express server, followed by the properties the
    specification states about them.

    JavaScript numbers are modelled twice.

    - [Binary64] models the geodesic distance, the path sampler and the
      interpolation of [src/utils.js] on IEEE 754 binary64 numbers, as the
      engine computes them: every operation rounds, overflows and produces
      [NaN] as the hardware does.  The properties of these functions that
      depend on rounding are stated there.

    - [JS.num] is the real numbers extended with [NaN], [+Infinity] and
      [-Infinity].  Arithmetic on finite values is exact (rounding, overflow
      and the sign of zero are not modelled); the special values follow
      IEEE 754 as JavaScript does.  The progress controller is stated over
      it: its properties are comparisons, sums and quotients of the numbers
      the rider enters and the service returns. *)

From Stdlib Require Import Floats.
From Stdlib Require Import Reals Lra Psatz ZArith List Ascii String Bool.
Import ListNotations.

(* ================================================================== *)
(** * JavaScript numbers *)
(* ================================================================== *)

Module JS.

Inductive num : Type :=
| Fin (r : R)
| PInf
| NInf
| NaN.

Definition Rltb (a b : R) : bool := if Rlt_dec a b then true else false.
Definition Rleb (a b : R) : bool := if Rle_dec a b then true else false.
Definition Reqb (a b : R) : bool := if Req_dec_T a b then true else false.

Definition isNaN (x : num) : bool :=
  match x with NaN => true | _ => false end.

Definition is_fin (x : num) : bool :=
  match x with Fin _ => true | _ => false end.

Definition neg (x : num) : num :=
  match x with
  | Fin r => Fin (- r)
  | PInf => NInf
  | NInf => PInf
  | NaN => NaN
  end.

Definition add (x y : num) : num :=
  match x, y with
  | NaN, _ | _, NaN => NaN
  | Fin a, Fin b => Fin (a + b)
  | PInf, NInf | NInf, PInf => NaN
  | PInf, _ | _, PInf => PInf
  | NInf, _ | _, NInf => NInf
  end.

Definition sub (x y : num) : num := add x (neg y).

(** An infinity of sign [pos] multiplied by the finite value [r];
    also the value of [r / 0] when [pos] is [true]. *)
Definition scale_inf (pos : bool) (r : R) : num :=
  if Rltb 0 r then (if pos then PInf else NInf)
  else if Rltb r 0 then (if pos then NInf else PInf)
  else NaN.

Definition mul (x y : num) : num :=
  match x, y with
  | NaN, _ | _, NaN => NaN
  | Fin a, Fin b => Fin (a * b)
  | PInf, Fin b | Fin b, PInf => scale_inf true b
  | NInf, Fin b | Fin b, NInf => scale_inf false b
  | PInf, PInf | NInf, NInf => PInf
  | PInf, NInf | NInf, PInf => NInf
  end.

Definition div (x y : num) : num :=
  match x, y with
  | NaN, _ | _, NaN => NaN
  | Fin a, Fin b => if Reqb b 0 then scale_inf true a else Fin (a / b)
  | Fin _, PInf | Fin _, NInf => Fin 0
  | PInf, Fin b => if Rltb b 0 then NInf else PInf
  | NInf, Fin b => if Rltb b 0 then PInf else NInf
  | PInf, PInf | PInf, NInf | NInf, PInf | NInf, NInf => NaN
  end.

Definition ltb (x y : num) : bool :=
  match x, y with
  | NaN, _ | _, NaN => false
  | Fin a, Fin b => Rltb a b
  | _, NInf => false
  | NInf, _ => true
  | PInf, _ => false
  | Fin _, PInf => true
  end.

Definition leb (x y : num) : bool :=
  match x, y with
  | NaN, _ | _, NaN => false
  | Fin a, Fin b => Rleb a b
  | NInf, _ => true
  | _, PInf => true
  | PInf, _ => false
  | Fin _, NInf => false
  end.

Definition gtb (x y : num) : bool := ltb y x.
Definition geb (x y : num) : bool := leb y x.

(** [Math.min] of two arguments. *)
Definition Math_min (x y : num) : num :=
  match x, y with
  | NaN, _ | _, NaN => NaN
  | _, _ => if leb x y then x else y
  end.

Definition Math_PI : num := Fin PI.

Definition Math_sin (x : num) : num :=
  match x with Fin r => Fin (sin r) | _ => NaN end.

Definition Math_cos (x : num) : num :=
  match x with Fin r => Fin (cos r) | _ => NaN end.

Definition Math_sqrt (x : num) : num :=
  match x with
  | Fin r => if Rltb r 0 then NaN else Fin (sqrt r)
  | PInf => PInf
  | NInf | NaN => NaN
  end.

(** The angle of the point [(x, y)], in [(-PI, PI]]. *)
Definition Ratan2 (y x : R) : R :=
  if Rltb 0 x then atan (y / x)
  else if Rltb x 0 then (if Rleb 0 y then atan (y / x) + PI else atan (y / x) - PI)
  else if Rltb 0 y then PI / 2
  else if Rltb y 0 then - PI / 2
  else 0.

Definition Math_atan2 (y x : num) : num :=
  match y, x with
  | NaN, _ | _, NaN => NaN
  | Fin b, Fin a => Fin (Ratan2 b a)
  | Fin _, PInf => Fin 0
  | Fin b, NInf => if Rleb 0 b then Fin PI else Fin (- PI)
  | PInf, Fin _ => Fin (PI / 2)
  | NInf, Fin _ => Fin (- PI / 2)
  | PInf, PInf => Fin (PI / 4)
  | PInf, NInf => Fin (3 * PI / 4)
  | NInf, PInf => Fin (- PI / 4)
  | NInf, NInf => Fin (- 3 * PI / 4)
  end.

End JS.

Export JS.

Declare Scope num_scope.
Delimit Scope num_scope with num.
Bind Scope num_scope with num.
Infix "+" := add : num_scope.
Infix "-" := sub : num_scope.
Infix "*" := mul : num_scope.
Infix "/" := div : num_scope.
Infix "<?" := ltb (at level 70, no associativity) : num_scope.
Infix "<=?" := leb (at level 70, no associativity) : num_scope.
Infix ">?" := gtb (at level 70, no associativity) : num_scope.
Infix ">=?" := geb (at level 70, no associativity) : num_scope.
Notation "# r" := (Fin r%R) (at level 1, r at level 0, format "# r") : num_scope.

(* ================================================================== *)
(** * The global [parseFloat] *)
(* ================================================================== *)

(** Modelled from ECMAScript ([parseFloat], [StrDecimalLiteral]): leading
    white space is skipped (the ASCII white space and line terminators), the
    longest prefix that is a decimal literal is read, and its mathematical
    value is the result; [NaN] when there is no such prefix.  The handlers
    below take [parseFloat] as a parameter; this instance serves the concrete
    runs. *)
Module Builtins.

Local Open Scope string_scope.

Definition isWhiteSpace (c : ascii) : bool :=
  match nat_of_ascii c with
  | 9%nat | 10%nat | 11%nat | 12%nat | 13%nat | 32%nat => true
  | _ => false
  end.

Fixpoint trimStart (s : string) : string :=
  match s with
  | String c s' => if isWhiteSpace c then trimStart s' else s
  | EmptyString => s
  end.

Definition digitValue (c : ascii) : option Z :=
  let n := nat_of_ascii c in
  if (48 <=? n)%nat && (n <=? 57)%nat then Some (Z.of_nat (n - 48)) else None.

(** The longest run of decimal digits [s] starts with: its value (continuing
    [acc]), [count] plus the number of digits read, and the rest. *)
Fixpoint readDigits (s : string) (acc : Z) (count : nat) : Z * nat * string :=
  match s with
  | String c s' =>
      match digitValue c with
      | Some d => readDigits s' (10 * acc + d)%Z (S count)
      | None => (acc, count, s)
      end
  | EmptyString => (acc, count, s)
  end.

(** An optional sign: whether it is [-], and the rest. *)
Definition readSign (s : string) : bool * string :=
  match s with
  | String c s' =>
      if Ascii.eqb c "-" then (true, s')
      else if Ascii.eqb c "+" then (false, s')
      else (false, s)
  | EmptyString => (false, s)
  end.

(** The value of the exponent part [s] starts with; 0 when it starts with
    none. *)
Definition readExponent (s : string) : Z :=
  match s with
  | String c s' =>
      if Ascii.eqb c "e" || Ascii.eqb c "E" then
        let '(negative, s'') := readSign s' in
        let '(e, n, _) := readDigits s'' 0%Z 0%nat in
        if Nat.eqb n 0 then 0%Z else if negative then (- e)%Z else e
      else 0%Z
  | EmptyString => 0%Z
  end.

Definition parseUnsigned (s : string) : num :=
  if String.prefix "Infinity" s then PInf
  else
    let '(ip, ni, r1) := readDigits s 0%Z 0%nat in
    let '(m, nall, r2) :=
      match r1 with
      | String c r => if Ascii.eqb c "." then readDigits r ip ni else (ip, ni, r1)
      | EmptyString => (ip, ni, r1)
      end in
    if Nat.eqb nall 0 then NaN
    else Fin (IZR m * powerRZ 10 (readExponent r2 - Z.of_nat (nall - ni))).

Definition parseFloat (s : string) : num :=
  let '(negative, u) := readSign (trimStart s) in
  let v := parseUnsigned u in
  if negative then neg v else v.

End Builtins.

(* ================================================================== *)
(** * utils.js *)
(* ================================================================== *)

(** The functions of [src/utils.js] over [JS.num], as the progress
    controller calls them.  The geodesic distance and the path sampler are
    arithmetic on rounded numbers; what rounding does to them is stated over
    [Binary64] below, and the statements about the controller use of a
    distance only whether it is positive. *)
Module Utils.

Local Open Scope num_scope.

(** A Leaflet position [{ lat, lng }]. *)
Record LatLng : Type := mkLatLng { lat : num; lng : num }.

Definition toRad (x : num) : num := (x * Math_PI) / #180.

Definition haversineDistance (coords1 coords2 : LatLng) : num :=
  let lat1 := lat coords1 in
  let lon1 := lng coords1 in
  let lat2 := lat coords2 in
  let lon2 := lng coords2 in
  let R := #6371 in
  let dLat := toRad (lat2 - lat1) in
  let dLatSin := Math_sin (dLat / #2) in
  let dLon := toRad (lon2 - lon1) in
  let dLonSin := Math_sin (dLon / #2) in
  let a :=
    dLatSin * dLatSin +
    Math_cos (toRad lat1) * Math_cos (toRad lat2) * dLonSin * dLonSin in
  let c := #2 * Math_atan2 (Math_sqrt a) (Math_sqrt (#1 - a)) in
  R * c.

(** ** The routing service

    [fetchRoute] awaits [fetch(url)] and [response.json()].  What the network
    delivers is an input of the model: either one of the two awaits rejects
    (the thrown error carries a message), or a JSON body arrives.  The body
    has the shape the code reads: a [code], an optional [routes] array whose
    elements carry [geometry.coordinates] ([[lng, lat]] pairs) and a
    [distance] in meters. *)

Record OsrmRoute : Type := mkOsrmRoute {
  geometry_coordinates : list (num * num);
  route_distance : num
}.

Record OsrmBody : Type := mkOsrmBody {
  code : string;
  routes : option (list OsrmRoute)
}.

Inductive FetchOutcome : Type :=
| Rejected (message : string)
| Responded (data : OsrmBody).

(** The object [fetchRoute] resolves to: [{ coordinates, distance }] or
    [{ error }]. *)
Inductive RouteData : Type :=
| RouteOk (coordinates : list LatLng) (distance : num)
| RouteError (error : string).

(** Computations that may throw an [Error] with a message. *)
Inductive Exn (A : Type) : Type :=
| Return (a : A)
| Throw (message : string).
Arguments Return {A} a.
Arguments Throw {A} message.

Definition bind {A B : Type} (m : Exn A) (k : A -> Exn B) : Exn B :=
  match m with
  | Return a => k a
  | Throw msg => Throw msg
  end.

Definition try_catch {A : Type} (body : Exn A) (handler : string -> A) : A :=
  match body with
  | Return a => a
  | Throw msg => handler msg
  end.

Notation "x <- m ;; k" := (bind m (fun x => k))
  (at level 61, m at next level, right associativity).

Definition await_json (net : FetchOutcome) : Exn OsrmBody :=
  match net with
  | Rejected msg => Throw msg
  | Responded data => Return data
  end.

(** [!data.routes || data.routes.length === 0] *)
Definition no_routes (data : OsrmBody) : bool :=
  match routes data with
  | None => true
  | Some rs => Nat.eqb (List.length rs) 0
  end.

(** [data.routes[0]]; reading a field of a missing element throws a
    [TypeError]. *)
Definition first_route (data : OsrmBody) : Exn OsrmRoute :=
  match routes data with
  | Some (route :: _) => Return route
  | Some [] | None => Throw "Cannot read properties of undefined"
  end.

Definition fetchRoute (start end_ : LatLng) (net : FetchOutcome) : RouteData :=
  try_catch
    (data <- await_json net ;;
     if negb (String.eqb (code data) "Ok") || no_routes data
     then Throw "No route found"
     else
       route <- first_route data ;;
       let coordinates :=
         map (fun coord => {| lat := snd coord; lng := fst coord |})
             (geometry_coordinates route) in
       Return (RouteOk coordinates (route_distance route / #1000)))
    (fun message => RouteError message).

(** ** The path sampler *)

(** The [for] loop of [getPositionAlongPath], from the segment that starts at
    the head of [path], with [covered] kilometres behind it; [None] when the
    loop runs to its end without returning. *)
Fixpoint walkPath (distanceKm covered : num) (path : list LatLng)
  : option LatLng :=
  match path with
  | start :: ((end_ :: _) as rest) =>
      let segDist := haversineDistance start end_ in
      if covered + segDist >=? distanceKm then
        let remaining := distanceKm - covered in
        let ratio := remaining / segDist in
        Some {| lat := lat start + (lat end_ - lat start) * ratio;
                lng := lng start + (lng end_ - lng start) * ratio |}
      else walkPath distanceKm (covered + segDist) rest
  | _ => None
  end.

(** [path] is [None] for a [null] or [undefined] argument; the result is
    [None] for [null]. *)
Definition getPositionAlongPath (path : option (list LatLng)) (distanceKm : num)
  : option LatLng :=
  match path with
  | None | Some [] => None
  | Some ((p0 :: _) as l) =>
      if distanceKm <=? #0 then Some p0
      else
        match walkPath distanceKm #0 l with
        | Some p => Some p
        | None => Some (last l p0)
        end
  end.

Definition interpolatePosition (start end_ : option LatLng) (progress : num)
  : option LatLng :=
  match start, end_ with
  | Some s, Some e =>
      if progress <=? #0 then Some s
      else if progress >=? #1 then Some e
      else
        let lat' := lat s + (lat e - lat s) * progress in
        let lng' := lng s + (lng e - lng s) * progress in
        Some {| lat := lat'; lng := lng' |}
  | _, _ => None
  end.

(** ** The parts of the haversine formula, named for the proofs *)

(** The distance as a function of the haversine [a] of the central angle. *)
Definition distanceOf (a : num) : num :=
  #6371 * (#2 * Math_atan2 (Math_sqrt a) (Math_sqrt (#1 - a))).

(** The sine of half a difference of degrees, as the source computes it. *)
Definition halfSin (x y : num) : num := Math_sin (toRad (y - x) / #2).

Definition haversineOf (coords1 coords2 : LatLng) : num :=
  halfSin (lat coords1) (lat coords2) * halfSin (lat coords1) (lat coords2) +
  Math_cos (toRad (lat coords1)) * Math_cos (toRad (lat coords2)) *
  halfSin (lng coords1) (lng coords2) * halfSin (lng coords1) (lng coords2).

End Utils.

(* ================================================================== *)
(** * utils.js on binary64 numbers *)
(* ================================================================== *)

(** The geodesic distance, the path sampler and the interpolation once more,
    on the numbers the engine computes with.  [float] is IEEE 754 binary64
    and [+], [-], [*], [/], the comparisons and the square root are the
    operations of the hardware, which are the operations of JavaScript.

    [Math.sin], [Math.cos] and [Math.atan2] are not fixed by ECMAScript: the
    standard fixes their value at the special arguments and leaves the rest
    to the engine ("implementation-approximated").  [Engine] is that rest,
    and every statement below holds for every engine.  [Math.sqrt] is the
    correctly rounded square root of IEEE 754, the instruction every engine
    compiles it to. *)
Module Binary64.

Local Open Scope float_scope.

(** A Leaflet position [{ lat, lng }]. *)
Record LatLng : Type := mkLatLng { lat : float; lng : float }.

Record Engine : Type := mkEngine {
  approx_sin : float -> float;
  approx_cos : float -> float;
  approx_atan2 : float -> float -> float
}.

(** [x >= y] *)
Definition geb (x y : float) : bool := y <=? x.

(** [Math.PI] is 3.141592653589793. *)
Definition Math_PI : float := 0x1.921fb54442d18p+1.

Definition Math_sqrt (x : float) : float := PrimFloat.sqrt x.

(** ECMAScript, [Math.sin]: [NaN] for [NaN] and the infinities, the argument
    itself for [+0] and [-0]. *)
Definition Math_sin (js : Engine) (x : float) : float :=
  if is_nan x || is_infinity x then nan
  else if is_zero x then x
  else approx_sin js x.

(** ECMAScript, [Math.cos]: [NaN] for [NaN] and the infinities, 1 for [+0]
    and [-0]. *)
Definition Math_cos (js : Engine) (x : float) : float :=
  if is_nan x || is_infinity x then nan
  else if is_zero x then 1
  else approx_cos js x.

(** ECMAScript, [Math.atan2]: [NaN] when an argument is [NaN]; [y] itself
    for a zero [y] and an [x] that is positive or [+0]; the zero of the sign
    of [y] for a finite [y] and [x = +Infinity].  The other special cases
    are approximations of multiples of pi and belong to the engine. *)
Definition Math_atan2 (js : Engine) (y x : float) : float :=
  if is_nan y || is_nan x then nan
  else if is_zero y && ((0 <? x) || (1 / x =? infinity)) then y
  else if is_finite y && (x =? infinity) then
    (if 0 <? y then 0 else if y <? 0 then -0 else approx_atan2 js y x)
  else approx_atan2 js y x.

Definition toRad (x : float) : float := (x * Math_PI) / 180.

(** The haversine of the central angle: the constant [a] of
    [haversineDistance]. *)
Definition haversineTerm (js : Engine) (coords1 coords2 : LatLng) : float :=
  let lat1 := lat coords1 in
  let lon1 := lng coords1 in
  let lat2 := lat coords2 in
  let lon2 := lng coords2 in
  let dLat := toRad (lat2 - lat1) in
  let dLatSin := Math_sin js (dLat / 2) in
  let dLon := toRad (lon2 - lon1) in
  let dLonSin := Math_sin js (dLon / 2) in
  dLatSin * dLatSin +
  Math_cos js (toRad lat1) * Math_cos js (toRad lat2) * dLonSin * dLonSin.

(** The distance for a given [a]: the last two statements of
    [haversineDistance]. *)
Definition distanceOf (js : Engine) (a : float) : float :=
  let R := 6371 in
  let c := 2 * Math_atan2 js (Math_sqrt a) (Math_sqrt (1 - a)) in
  R * c.

Definition haversineDistance (js : Engine) (coords1 coords2 : LatLng) : float :=
  let a := haversineTerm js coords1 coords2 in
  distanceOf js a.

(** The [for] loop of [getPositionAlongPath], from the segment that starts at
    the head of [path], with [covered] kilometres behind it; [None] when the
    loop runs to its end without returning. *)
Fixpoint walkPath (js : Engine) (distanceKm covered : float) (path : list LatLng)
  : option LatLng :=
  match path with
  | start :: ((end_ :: _) as rest) =>
      let segDist := haversineDistance js start end_ in
      if geb (covered + segDist) distanceKm then
        let remaining := distanceKm - covered in
        let ratio := remaining / segDist in
        Some {| lat := lat start + (lat end_ - lat start) * ratio;
                lng := lng start + (lng end_ - lng start) * ratio |}
      else walkPath js distanceKm (covered + segDist) rest
  | _ => None
  end.

(** [path] is [None] for a [null] or [undefined] argument; the result is
    [None] for [null]. *)
Definition getPositionAlongPath
    (js : Engine) (path : option (list LatLng)) (distanceKm : float)
  : option LatLng :=
  match path with
  | None | Some [] => None
  | Some ((p0 :: _) as l) =>
      if distanceKm <=? 0 then Some p0
      else
        match walkPath js distanceKm 0 l with
        | Some p => Some p
        | None => Some (last l p0)
        end
  end.

Definition interpolatePosition (start end_ : option LatLng) (progress : float)
  : option LatLng :=
  match start, end_ with
  | Some s, Some e =>
      if progress <=? 0 then Some s
      else if geb progress 1 then Some e
      else
        let lat' := lat s + (lat e - lat s) * progress in
        let lng' := lng s + (lng e - lng s) * progress in
        Some {| lat := lat'; lng := lng' |}
  | _, _ => None
  end.

(** The lengths of the segments of a path; the values [covered + segDist]
    takes along it, one for each segment; and the value of [covered] when
    the loop has run to its end, which is the total length of the path as
    the loop accumulates it. *)
Fixpoint segmentLengths (js : Engine) (path : list LatLng) : list float :=
  match path with
  | start :: ((end_ :: _) as rest) =>
      haversineDistance js start end_ :: segmentLengths js rest
  | _ => []
  end.


Fixpoint lengthFrom (js : Engine) (covered : float) (path : list LatLng)
  : float :=
  match path with
  | start :: ((end_ :: _) as rest) =>
      lengthFrom js (covered + haversineDistance js start end_) rest
  | _ => covered
  end.

Definition totalLength (js : Engine) (path : list LatLng) : float :=
  lengthFrom js 0 path.

(** A length is a number and not negative. *)
Definition isLength (h : float) : Prop := (0 <=? h) = true.

(** Both coordinates are finite numbers. *)
Definition finite (p : LatLng) : bool := is_finite (lat p) && is_finite (lng p).

(** [NaN], [+Infinity] or [-Infinity]. *)
Definition not_a_finite_number (x : float) : Prop :=
  x = nan \/ x = infinity \/ x = neg_infinity.

(** The number of binary digits of a mantissa. *)
Definition mantissaDigits (m : positive) : Z := Zpos (digits2_pos m).

(** An engine for the concrete runs: the approximations for small angles,
    [sin x] by [x], [cos x] by 1 and [atan2 y x] by [y / x].  No statement
    depends on it but the runs. *)
Definition smallAngles : Engine :=
  {| approx_sin := fun x => x;
     approx_cos := fun _ => 1;
     approx_atan2 := fun y x => y / x |}.

(** ** Points for the scenarios

    [nextToOrigin] lies 5e-324 degrees (the smallest positive number) north
    of [origin]; [tenthNorth] is [{ lat: 0.1, lng: 0 }] and
    [threeTenthsSouth] is [{ lat: -0.3, lng: 0 }]. *)
Definition origin : LatLng := {| lat := 0; lng := 0 |}.

Definition nextToOrigin : LatLng := {| lat := 0x1p-1074; lng := 0 |}.

Definition tenthNorth : LatLng := {| lat := 0x1.999999999999ap-4; lng := 0 |}.

Definition threeTenthsSouth : LatLng :=
  {| lat := -0x1.3333333333333p-2; lng := 0 |}.

(** Two points that lie opposite each other on the globe:
    [{ lat: -0.73991, lng: 17.40558 }] and
    [{ lat: 0.73991, lng: -162.59442 }]. *)
Definition antipodeA : LatLng :=
  {| lat := -0x1.7ad57bc7f77afp-1; lng := 0x1.167d41743e964p+4 |}.

Definition antipodeB : LatLng :=
  {| lat := 0x1.7ad57bc7f77afp-1; lng := -0x1.453057d1782d4p+7 |}.

(** The engine returns the correctly rounded sine and cosine at the
    arguments the distance between these two points needs:
    sin(0.012913865668431243) = 0.012913506734990744,
    sin(1.5707963267948966) = 1, cos(0.012913865668431243) =
    0.9999166171955567, and the same with the signs of odd and even
    functions. *)
Definition roundsAtAntipodes (js : Engine) : Prop :=
  approx_sin js 0x1.a7295b5afd1cbp-7 = 0x1.a726588d3e35ap-7 /\
  approx_sin js (-0x1.a7295b5afd1cbp-7) = -0x1.a726588d3e35ap-7 /\
  approx_sin js 0x1.921fb54442d18p+0 = 1 /\
  approx_sin js (-0x1.921fb54442d18p+0) = -1 /\
  approx_cos js 0x1.a7295b5afd1cbp-7 = 0x1.fff5122329ea8p-1 /\
  approx_cos js (-0x1.a7295b5afd1cbp-7) = 0x1.fff5122329ea8p-1.

End Binary64.

(* ================================================================== *)
(** * App: the progress state controller *)
(* ================================================================== *)

Module App.

Import Utils.
Local Open Scope num_scope.

Inductive AppState : Type := SETUP | TRACKING | CELEBRATION.

Definition AppState_eqb (a b : AppState) : bool :=
  match a, b with
  | SETUP, SETUP | TRACKING, TRACKING | CELEBRATION, CELEBRATION => true
  | _, _ => false
  end.

Record Route : Type := mkRoute {
  start : option LatLng;
  end_ : option LatLng;
  path : list LatLng;
  distance : num
}.

Record Progress : Type := mkProgress {
  currentKm : num;
  totalKm : num;
  percentage : num
}.

(** The marker a click lands on: ['start'] or ['end']. *)
Inductive MarkerType : Type := MStart | MEnd.

(** The state hooks of [App] the handlers read and write. *)
Record State : Type := mkState {
  appState : AppState;
  route : Route;
  progress : Progress;
  inputKm : string;
  showCelebration : bool;
  isLoading : bool
}.

(** Default: Rettenbrunner W. 15, Ried *)
Definition defaultStart : LatLng :=
  {| lat := #(4820967 / 100000); lng := #(1348831 / 100000) |}.

Definition initialRoute : Route :=
  {| start := Some defaultStart; end_ := None; path := []; distance := #0 |}.

Definition initialProgress : Progress :=
  {| currentKm := #0; totalKm := #0; percentage := #0 |}.

Definition initialState : State :=
  {| appState := SETUP;
     route := initialRoute;
     progress := initialProgress;
     inputKm := "";
     showCelebration := false;
     isLoading := false |}.

(** The state setters; [setRoute] and [setProgress] take the updater
    function of the source ([prev => ...]). *)
Definition setAppState (a : AppState) (st : State) : State :=
  {| appState := a; route := route st; progress := progress st;
     inputKm := inputKm st; showCelebration := showCelebration st;
     isLoading := isLoading st |}.

Definition setRoute (f : Route -> Route) (st : State) : State :=
  {| appState := appState st; route := f (route st); progress := progress st;
     inputKm := inputKm st; showCelebration := showCelebration st;
     isLoading := isLoading st |}.

Definition setProgress (f : Progress -> Progress) (st : State) : State :=
  {| appState := appState st; route := route st; progress := f (progress st);
     inputKm := inputKm st; showCelebration := showCelebration st;
     isLoading := isLoading st |}.

Definition setInputKm (s : string) (st : State) : State :=
  {| appState := appState st; route := route st; progress := progress st;
     inputKm := s; showCelebration := showCelebration st;
     isLoading := isLoading st |}.

Definition setShowCelebration (b : bool) (st : State) : State :=
  {| appState := appState st; route := route st; progress := progress st;
     inputKm := inputKm st; showCelebration := b;
     isLoading := isLoading st |}.

Definition setIsLoading (b : bool) (st : State) : State :=
  {| appState := appState st; route := route st; progress := progress st;
     inputKm := inputKm st; showCelebration := showCelebration st;
     isLoading := b |}.

Definition handleMapClick (latlng : LatLng) (st : State) : State :=
  if negb (AppState_eqb (appState st) SETUP) then st
  else
    match start (route st) with
    | None =>
        setRoute (fun prev =>
          {| start := Some latlng; end_ := end_ prev;
             path := path prev; distance := distance prev |}) st
    | Some _ =>
        match end_ (route st) with
        | None =>
            setRoute (fun prev =>
              {| start := start prev; end_ := Some latlng;
                 path := path prev; distance := distance prev |}) st
        | Some _ => st
        end
    end.

Definition handleMarkerClick (type : MarkerType) (st : State) : State :=
  if negb (AppState_eqb (appState st) SETUP) then st
  else
    setRoute (fun prev =>
      {| start := match type with MStart => None | MEnd => start prev end;
         end_ := match type with MEnd => None | MStart => end_ prev end;
         path := [];
         distance := #0 |}) st.

Definition resetRoute (st : State) : State :=
  setShowCelebration false
    (setAppState SETUP
      (setInputKm ""
        (setProgress (fun _ => {| currentKm := #0; totalKm := #0; percentage := #0 |})
          (setRoute (fun _ =>
             {| start := Some defaultStart; end_ := None;
                path := []; distance := #0 |}) st)))).

(** [net] is what the routing service delivers if [startJourney] comes to
    call [fetchRoute], and the request and its answer are one step here.
    The test [routeData && !routeData.error] is modelled for error objects
    with a message that is not empty; the statements about a failed fetch
    carry that as a hypothesis.  ([startJourneyAnswer] below covers the
    empty message.) *)
Definition startJourney (net : FetchOutcome) (st : State) : State :=
  match start (route st), end_ (route st) with
  | Some s, Some e =>
      if distance (route st) >? #0 then
        setAppState TRACKING
          (setProgress (fun _ =>
             {| currentKm := #0; totalKm := distance (route st);
                percentage := #0 |}) st)
      else
        let routeData := fetchRoute s e net in
        let st := setIsLoading false (setIsLoading true st) in
        match routeData with
        | RouteOk coordinates dist =>
            setAppState TRACKING
              (setProgress (fun _ =>
                 {| currentKm := #0; totalKm := dist; percentage := #0 |})
                (setRoute (fun prev =>
                   {| start := start prev; end_ := end_ prev;
                      path := coordinates; distance := dist |}) st))
        | RouteError _ =>
            let total := haversineDistance s e in
            if total >? #0 then
              setAppState TRACKING
                (setProgress (fun _ =>
                   {| currentKm := #0; totalKm := total; percentage := #0 |}) st)
            else st
        end
  | _, _ => st
  end.

(** The preview effect [calculatePreview]: it fetches when both points are
    set in SETUP and no path is there yet.  As in [startJourney] the request
    and its answer are one step, and the error objects have a message that
    is not empty. *)
Definition calculatePreview (net : FetchOutcome) (st : State) : State :=
  match start (route st), end_ (route st) with
  | Some s, Some e =>
      if AppState_eqb (appState st) SETUP
         && Nat.eqb (List.length (path (route st))) 0
         && negb (isLoading st)
      then
        let routeData := fetchRoute s e net in
        let st := setIsLoading false (setIsLoading true st) in
        match routeData with
        | RouteOk coordinates dist =>
            setRoute (fun prev =>
              {| start := start prev; end_ := end_ prev;
                 path := coordinates; distance := dist |}) st
        | RouteError _ => st
        end
      else st
  | _, _ => st
  end.

(** ** [startJourney] around its [await]

    While the request of [startJourney] is pending the button is disabled,
    the map and its markers are not: other handlers can run before the
    answer arrives.  [startJourneyRequest] is the function up to its
    [await]; with a request sent it gives the two points the closure holds.
    [startJourneyAnswer] is the function from the answer on, run on the
    state of that moment: [setRoute] updates the route of that moment, the
    fallback measures the points of the closure.  An error object with an
    empty message passes [!routeData.error] and has no coordinates and no
    distance to store: the result is [None], a state this model has no
    value for. *)
Definition startJourneyRequest (st : State) : State * option (LatLng * LatLng) :=
  match start (route st), end_ (route st) with
  | Some s, Some e =>
      if distance (route st) >? #0 then
        (setAppState TRACKING
           (setProgress (fun _ =>
              {| currentKm := #0; totalKm := distance (route st);
                 percentage := #0 |}) st),
         None)
      else (setIsLoading true st, Some (s, e))
  | _, _ => (st, None)
  end.

Definition startJourneyAnswer
    (closure : LatLng * LatLng) (net : FetchOutcome) (st : State)
  : option State :=
  let routeData := fetchRoute (fst closure) (snd closure) net in
  let st := setIsLoading false st in
  match routeData with
  | RouteOk coordinates dist =>
      Some (setAppState TRACKING
              (setProgress (fun _ =>
                 {| currentKm := #0; totalKm := dist; percentage := #0 |})
                (setRoute (fun prev =>
                   {| start := start prev; end_ := end_ prev;
                      path := coordinates; distance := dist |}) st)))
  | RouteError message =>
      if String.eqb message "" then None
      else
        let total := haversineDistance (fst closure) (snd closure) in
        if total >? #0 then
          Some (setAppState TRACKING
                  (setProgress (fun _ =>
                     {| currentKm := #0; totalKm := total; percentage := #0 |})
                     st))
        else Some st
  end.

(** The position of the cyclist marker, recomputed after every change of
    [progress], [route] or [appState]; [prev] is the position shown so far. *)
Definition currentPositionEffect (st : State) (prev : option LatLng)
  : option LatLng :=
  match appState st with
  | TRACKING | CELEBRATION =>
      if negb (Nat.eqb (List.length (path (route st))) 0) then
        getPositionAlongPath (Some (path (route st))) (currentKm (progress st))
      else
        match start (route st), end_ (route st) with
        | Some _, Some _ =>
            interpolatePosition (start (route st)) (end_ (route st))
                                (percentage (progress st))
        | _, _ => prev
        end
  | SETUP => None
  end.

Section AddDistance.

(** The global [parseFloat]: the number a string starts with, [NaN] when it
    starts with none. *)
Variable parseFloat : string -> num.

Definition addDistance (st : State) : State :=
  let added := parseFloat (inputKm st) in
  if negb (isNaN added) && (added >? #0) then
    setAppState CELEBRATION
      (setInputKm ""
        (setProgress (fun prev =>
           let newCurrent := Math_min (currentKm prev + added) (totalKm prev) in
           {| currentKm := newCurrent;
              percentage := newCurrent / totalKm prev;
              totalKm := totalKm prev |}) st))
  else st.

(** ** The events of a session

    The handlers run when the page lets them: the map and its markers are
    always there (the handlers guard the phase themselves), a marker only
    when its point is set; "Eintragung starten" is shown in SETUP once an
    end point is set and is disabled while loading; the reset buttons are
    shown in SETUP with a start point, in TRACKING, and in CELEBRATION once
    the goal is reached; the input and "Dazu" (disabled on an empty input)
    are shown in TRACKING; "Zurueck zur Karte" is shown in CELEBRATION
    before the goal is reached. *)
Definition resetShown (st : State) : bool :=
  match appState st with
  | SETUP => match start (route st) with Some _ => true | None => false end
  | TRACKING => true
  | CELEBRATION => currentKm (progress st) >=? totalKm (progress st)
  end.

Inductive step : State -> State -> Prop :=
| step_mapClick (latlng : LatLng) (st : State) :
    step st (handleMapClick latlng st)
| step_markerStart (st : State) :
    start (route st) <> None ->
    step st (handleMarkerClick MStart st)
| step_markerEnd (st : State) :
    end_ (route st) <> None ->
    step st (handleMarkerClick MEnd st)
| step_preview (net : FetchOutcome) (st : State) :
    step st (calculatePreview net st)
| step_startJourney (net : FetchOutcome) (st : State) :
    appState st = SETUP -> end_ (route st) <> None -> isLoading st = false ->
    step st (startJourney net st)
| step_resetRoute (st : State) :
    resetShown st = true ->
    step st (resetRoute st)
| step_input (s : string) (st : State) :
    appState st = TRACKING ->
    step st (setInputKm s st)
| step_addDistance (st : State) :
    appState st = TRACKING -> inputKm st <> EmptyString ->
    step st (addDistance st)
| step_backToMap (st : State) :
    appState st = CELEBRATION ->
    (currentKm (progress st) >=? totalKm (progress st)) = false ->
    step st (setAppState TRACKING st).

Inductive reachable : State -> Prop :=
| reachable_initial : reachable initialState
| reachable_step (st st' : State) :
    reachable st -> step st st' -> reachable st'.

End AddDistance.

(** ** A session for the scenarios

    The end point a rider clicks, and the answer of the routing service for
    two points that snap to the same place on the road: code "Ok" and one
    route of 0 meters.  [readyState] is the state once the click has set the
    end point and the preview has fetched that route. *)
Definition rideEnd : LatLng := {| lat := #48; lng := #13 |}.

Definition zeroLengthRoute : FetchOutcome :=
  Responded
    {| code := "Ok";
       routes := Some [ {| geometry_coordinates := [ (#13, #48); (#13, #48) ];
                           route_distance := #0 |} ] |}.

Definition readyState : State :=
  calculatePreview zeroLengthRoute (handleMapClick rideEnd initialState).

(** The answer of the routing service for a ride of 1500 meters from the
    default start to [rideEnd]. *)
Definition shortRoute : FetchOutcome :=
  Responded
    {| code := "Ok";
       routes :=
         Some [ {| geometry_coordinates :=
                     [ (#(1348831 / 100000), #(4820967 / 100000)); (#13, #48) ];
                   route_distance := #1500 |} ] |}.

(** The ride on that route, and the ride after the rider has entered 1 km
    and pressed "Dazu". *)
Definition ridingState : State :=
  startJourney (Rejected "offline")
    (calculatePreview shortRoute (handleMapClick rideEnd initialState)).

Definition afterOneKm : State :=
  addDistance Builtins.parseFloat (setInputKm "1" ridingState).

End App.

(* ================================================================== *)
(** * server.js: the file-backed store *)
(* ================================================================== *)

(** The express server keeps profiles and per-user state in [db.json].
    Every handler reads the file, and the POST handlers write it back.

    The model covers requests that reach a handler (the body has passed
    [express.json]) and a file that is missing, unreadable, not JSON, or
    holds what the server writes: an object with an optional [profiles]
    value and a [userData] object.  Writing the file succeeds.  [writeDb]
    keeps the value as it is, which is what [JSON.stringify] followed by
    [JSON.parse] does for a value without [NaN] and infinite numbers
    ([roundTrip_jsonSafe]); those are written as [null], and the statements
    that read a posted value back carry [jsonSafe] as a hypothesis.  An
    object is the list of its own properties, oldest first. *)
Module Server.

Local Open Scope string_scope.

#[local] Unset Elimination Schemes.
Inductive Json : Type :=
| JNull
| JBool (b : bool)
| JNumber (n : num)
| JString (s : string)
| JArray (items : list Json)
| JObject (fields : list (string * Json)).
#[local] Set Elimination Schemes.

(** [JSON.stringify] writes [NaN] and the infinities as [null]; every other
    value is read back by [JSON.parse] as it was written.  [roundTrip v] is
    what comes back for [v], and [jsonSafe v] says that no number in [v] is
    [NaN] or infinite. *)
Fixpoint roundTrip (v : Json) : Json :=
  match v with
  | JNumber n => if is_fin n then v else JNull
  | JArray items => JArray (map roundTrip items)
  | JObject fields =>
      JObject (map (fun kv => (fst kv, roundTrip (snd kv))) fields)
  | JNull | JBool _ | JString _ => v
  end.

Fixpoint jsonSafe (v : Json) : bool :=
  match v with
  | JNumber n => is_fin n
  | JArray items => forallb jsonSafe items
  | JObject fields => forallb (fun kv => jsonSafe (snd kv)) fields
  | JNull | JBool _ | JString _ => true
  end.

(** What [||] and [if] make of a JSON value. *)
Definition truthy (v : Json) : bool :=
  match v with
  | JNull => false
  | JBool b => b
  | JNumber (Fin r) => negb (Reqb r 0)
  | JNumber NaN => false
  | JNumber _ => true
  | JString s => negb (String.eqb s "")
  | JArray _ | JObject _ => true
  end.

(** The names every object inherits from [Object.prototype]. *)
Definition inheritedNames : list string :=
  [ "__proto__"; "constructor"; "hasOwnProperty"; "isPrototypeOf";
    "propertyIsEnumerable"; "toLocaleString"; "toString"; "valueOf";
    "__defineGetter__"; "__defineSetter__"; "__lookupGetter__";
    "__lookupSetter__" ].

Definition inherited (key : string) : bool :=
  existsb (String.eqb key) inheritedNames.

(** The value of [obj[key]]: an own property, a member of
    [Object.prototype], or [undefined]. *)
Inductive Lookup : Type :=
| Own (v : Json)
| Inherited
| Undefined.

Fixpoint own (obj : list (string * Json)) (key : string) : option Json :=
  match obj with
  | [] => None
  | (k, v) :: rest => if String.eqb k key then Some v else own rest key
  end.

Definition getProperty (obj : list (string * Json)) (key : string) : Lookup :=
  match own obj key with
  | Some v => Own v
  | None => if inherited key then Inherited else Undefined
  end.

Fixpoint assign (obj : list (string * Json)) (key : string) (v : Json)
  : list (string * Json) :=
  match obj with
  | [] => [(key, v)]
  | (k, old) :: rest =>
      if String.eqb k key then (k, v) :: rest else (k, old) :: assign rest key v
  end.

(** [obj[key] = v].  Without an own property of that name, assigning to
    ["__proto__"] reaches the setter of [Object.prototype] and creates no
    own property. *)
Definition setProperty (obj : list (string * Json)) (key : string) (v : Json)
  : list (string * Json) :=
  if String.eqb key "__proto__" then
    match own obj key with
    | Some _ => assign obj key v
    | None => obj
    end
  else assign obj key v.

(** An assignment that stores: to any name but ["__proto__"], or to a name
    the object has a property of. *)
Definition stores (obj : list (string * Json)) (key : string) : Prop :=
  key <> "__proto__" \/ own obj key <> None.

Record Db : Type := mkDb {
  profiles : option Json;
  userData : list (string * Json)
}.

(** [db.json] on the disk. *)
Inductive File : Type :=
| Unreadable
| Holds (db : Db).

Definition readDb (file : File) : Db :=
  match file with
  | Holds db => db
  | Unreadable => {| profiles := Some (JArray []); userData := [] |}
  end.

Definition writeDb (data : Db) : File := Holds data.

(** A file that [JSON.stringify] writes back as it is: it is missing or
    unreadable, or none of its numbers is [NaN] or infinite. *)
Definition fileSafe (file : File) : bool :=
  match file with
  | Unreadable => true
  | Holds db =>
      match profiles db with Some p => jsonSafe p | None => true end
      && forallb (fun kv => jsonSafe (snd kv)) (userData db)
  end.

(** What [res.json] is called with; for a member of [Object.prototype] the
    name it was found under. *)
Inductive Response : Type :=
| Sent (body : Json)
| SentInherited (key : string).

(** [db.profiles || []] *)
Definition orEmpty (v : option Json) : Json :=
  match v with
  | Some p => if truthy p then p else JArray []
  | None => JArray []
  end.

(** GET /api/profiles *)
Definition getProfiles (file : File) : Response :=
  let db := readDb file in
  Sent (orEmpty (profiles db)).

(** POST /api/profiles *)
Definition postProfiles (body : Json) (file : File) : File * Response :=
  let db := readDb file in
  let db := {| profiles := Some body; userData := userData db |} in
  (writeDb db,
   Sent (JObject [("success", JBool true); ("profiles", body)])).

Definition defaultUser : Json :=
  JObject [("route", JNull); ("progress", JNull); ("appState", JString "SETUP")].

(** GET /api/users/:id *)
Definition getUser (userId : string) (file : File) : Response :=
  let db := readDb file in
  match getProperty (userData db) userId with
  | Own v => if truthy v then Sent v else Sent defaultUser
  | Inherited => SentInherited userId
  | Undefined => Sent defaultUser
  end.

(** POST /api/users/:id *)
Definition postUser (userId : string) (body : Json) (file : File)
  : File * Response :=
  let db := readDb file in
  let db := {| profiles := profiles db;
               userData := setProperty (userData db) userId body |} in
  (writeDb db, Sent (JObject [("success", JBool true)])).

End Server.

(* ================================================================== *)
(** * Facts about JavaScript numbers *)
(* ================================================================== *)

Module JSFacts.

Local Open Scope num_scope.

(** Decide the comparisons of reals a goal or a hypothesis is stuck on. *)
Ltac rdec_step :=
  match goal with
  | |- context [Rlt_dec ?a ?b] => destruct (Rlt_dec a b)
  | |- context [Rle_dec ?a ?b] => destruct (Rle_dec a b)
  | |- context [Req_dec_T ?a ?b] => destruct (Req_dec_T a b)
  | H : context [Rlt_dec ?a ?b] |- _ => destruct (Rlt_dec a b)
  | H : context [Rle_dec ?a ?b] |- _ => destruct (Rle_dec a b)
  | H : context [Req_dec_T ?a ?b] |- _ => destruct (Req_dec_T a b)
  end.

Ltac rdec :=
  unfold scale_inf, Rltb, Rleb, Reqb in *;
  repeat rdec_step;
  try reflexivity; try discriminate; try (exfalso; lra); try lra.

Lemma Rltb_true (a b : R) : Rltb a b = true <-> (a < b)%R.
Proof. split; intro H; rdec. Qed.

Lemma Rltb_false (a b : R) : Rltb a b = false <-> (b <= a)%R.
Proof. split; intro H; rdec. Qed.

Lemma Rleb_true (a b : R) : Rleb a b = true <-> (a <= b)%R.
Proof. split; intro H; rdec. Qed.

Lemma Rleb_false (a b : R) : Rleb a b = false <-> (b < a)%R.
Proof. split; intro H; rdec. Qed.

Lemma Reqb_true (a b : R) : Reqb a b = true <-> a = b.
Proof. split; intro H; rdec. Qed.

Lemma Reqb_false (a b : R) : Reqb a b = false <-> a <> b.
Proof. split; intro H; rdec. Qed.

Lemma Fin_eq (a b : R) : a = b -> Fin a = Fin b.
Proof. intros ->; reflexivity. Qed.

Lemma div_fin (a b : R) : b <> 0%R -> #a / #b = #(a / b).
Proof. intro H. simpl. apply Reqb_false in H. rewrite H. reflexivity. Qed.

Lemma div_zero_zero : #0 / #0 = NaN.
Proof. simpl. rdec. Qed.

(** ** The special values *)

Example special_values :
  #1 / #0 = PInf /\ #(-1) / #0 = NInf /\ #0 / #0 = NaN /\
  PInf - PInf = NaN /\ PInf * #0 = NaN /\ #1 / PInf = #0 /\
  (NaN <=? NaN) = false /\ (NInf <? PInf) = true /\ (PInf <=? PInf) = true /\
  Math_min NaN #1 = NaN /\ Math_min #1 PInf = #1 /\
  Math_sqrt #(-1) = NaN /\ Math_sin PInf = NaN.
Proof.
  repeat split; simpl; rdec.
Qed.

(** ** The arithmetic operations *)

Lemma mul_comm (x y : num) : x * y = y * x.
Proof. destruct x, y; simpl; try reflexivity; apply Fin_eq; lra. Qed.

(** ** The comparisons *)

Lemma gtb_not_NaN (x y : num) : (x >? y) = true -> isNaN x = false.
Proof. destruct x, y; simpl; intro H; try reflexivity; discriminate. Qed.

Lemma leb_gtb (x y : num) : (x <=? y) = true -> (x >? y) = false.
Proof. destruct x, y; unfold gtb; simpl; intro H; try reflexivity; try discriminate; rdec. Qed.

Lemma gtb_irrefl (x : num) : (x >? x) = false.
Proof. destruct x; unfold gtb; simpl; try reflexivity; rdec. Qed.

Lemma leb_total (x y : num) :
  isNaN x = false -> isNaN y = false -> (x <=? y) = false -> (y <=? x) = true.
Proof. destruct x, y; simpl; intros Hx Hy H; try reflexivity; try discriminate; rdec. Qed.

Lemma leb_refl (x : num) : isNaN x = false -> (x <=? x) = true.
Proof. destruct x; simpl; intro H; try reflexivity; try discriminate; rdec. Qed.

(** ** [Math.min] *)

Lemma Math_min_cases (x y : num) :
  isNaN x = false -> isNaN y = false ->
  Math_min x y = if x <=? y then x else y.
Proof. destruct x, y; intros Hx Hy; try discriminate; reflexivity. Qed.

Lemma gtb_NaN_l (y : num) : (NaN >? y) = false.
Proof. destruct y; reflexivity. Qed.

Lemma Math_min_not_above (x y : num) : (Math_min x y >? y) = false.
Proof.
  destruct (isNaN x) eqn:Hx.
  { destruct x; try discriminate. apply gtb_NaN_l. }
  destruct (isNaN y) eqn:Hy.
  { destruct y; try discriminate. destruct x; reflexivity. }
  rewrite (Math_min_cases x y Hx Hy). destruct (x <=? y) eqn:L.
  - apply leb_gtb, L.
  - apply gtb_irrefl.
Qed.

Lemma Math_min_le (x y : num) :
  isNaN x = false -> isNaN y = false -> (Math_min x y <=? y) = true.
Proof.
  intros Hx Hy.
  rewrite (Math_min_cases x y Hx Hy).
  destruct (x <=? y) eqn:L; [exact L | apply leb_refl, Hy].
Qed.

End JSFacts.

(* ================================================================== *)
(** * Properties of utils.js *)
(* ================================================================== *)

Module UtilsFacts.

Import Utils JSFacts.
Local Open Scope num_scope.

(** ** Degrees to radians *)

Lemma toRad_fin (r : R) : toRad #r = #(r * PI / 180).
Proof. unfold toRad, Math_PI. cbn [mul]. apply div_fin. lra. Qed.

Lemma half_fin (r : R) : #r / #2 = #(r / 2).
Proof. apply div_fin. lra. Qed.

(** ** The haversine formula *)

Lemma haversineDistance_unfold (p q : LatLng) :
  haversineDistance p q = distanceOf (haversineOf p q).
Proof. reflexivity. Qed.

Lemma halfSin_self (r : R) : halfSin #r #r = #0.
Proof.
  unfold halfSin. cbn [sub neg add]. rewrite toRad_fin, half_fin. cbn [Math_sin].
  apply Fin_eq. replace ((r + - r) * PI / 180 / 2)%R with 0%R by lra.
  apply sin_0.
Qed.

Lemma Ratan2_zero_one : Ratan2 0 1 = 0%R.
Proof.
  unfold Ratan2. rdec. replace (0 / 1)%R with 0%R by lra. apply atan_0.
Qed.

Lemma distanceOf_zero : distanceOf #0 = #0.
Proof.
  unfold distanceOf. cbn [sub neg add Math_sqrt].
  replace (Rltb 0 0) with false by (symmetry; apply Rltb_false; lra).
  replace (Rltb (1 + - 0) 0) with false by (symmetry; apply Rltb_false; lra).
  cbn [Math_atan2 mul].
  apply Fin_eq.
  replace (1 + - 0)%R with 1%R by lra.
  rewrite sqrt_0, sqrt_1, Ratan2_zero_one. lra.
Qed.

Lemma haversineOf_self (la lo : R) :
  haversineOf {| lat := #la; lng := #lo |} {| lat := #la; lng := #lo |} = #0.
Proof.
  unfold haversineOf. cbn [lat lng]. rewrite !halfSin_self, toRad_fin.
  cbn [Math_cos mul add]. apply Fin_eq. lra.
Qed.

Lemma distanceOf_NaN : distanceOf NaN = NaN.
Proof. reflexivity. Qed.

Lemma gtb_geb (x y : num) : (x >? y) = true -> (x >=? y) = true.
Proof.
  destruct x, y; unfold gtb, geb; simpl; intro H;
    try reflexivity; try discriminate; rdec.
Qed.

(** ** A concrete distance *)

(** Half a turn along the equator. *)
Lemma haversineDistance_half_turn :
  haversineDistance {| lat := #0; lng := #0 |} {| lat := #0; lng := #180 |}
  = #(6371 * (2 * (PI / 2))).
Proof.
  rewrite haversineDistance_unfold.
  assert (A : haversineOf {| lat := #0; lng := #0 |} {| lat := #0; lng := #180 |} = #1).
  { unfold haversineOf. cbn [lat lng]. rewrite halfSin_self, toRad_fin.
    unfold halfSin. cbn [sub neg add]. rewrite toRad_fin, half_fin.
    cbn [Math_cos Math_sin mul add].
    replace (0 * PI / 180)%R with 0%R by lra.
    replace ((180 + - 0) * PI / 180 / 2)%R with (PI / 2)%R by lra.
    rewrite cos_0, sin_PI2. apply Fin_eq. lra. }
  rewrite A. unfold distanceOf. cbn [sub neg add Math_sqrt].
  replace (Rltb 1 0) with false by (symmetry; apply Rltb_false; lra).
  replace (Rltb (1 + - (1)) 0) with false by (symmetry; apply Rltb_false; lra).
  cbn [Math_atan2 mul]. apply Fin_eq.
  replace (1 + - (1))%R with 0%R by lra. rewrite sqrt_0, sqrt_1.
  unfold Ratan2. rdec.
Qed.

End UtilsFacts.

(* ================================================================== *)
(** * Facts about binary64 numbers *)
(* ================================================================== *)

(** The operations of [float] are specified by [Prim2SF], which reads a
    number as sign, mantissa and exponent, and by the functions of
    [SpecFloat] on that reading. *)
Module Binary64Facts.

Import Binary64.
Local Open Scope float_scope.

Lemma SFcompare_refl (x : spec_float) :
  x <> S754_nan -> SFcompare x x = Some Eq.
Proof.
  destruct x as [s | s | | s m e]; cbn; intro H; try congruence.
  - destruct s; reflexivity.
  - destruct s; rewrite Z.compare_refl, Pos.compare_cont_refl; reflexivity.
Qed.

(** ** [NaN] is absorbing, and equal to nothing *)

Lemma mul_nan_l (x : float) : nan * x = nan.
Proof. apply Prim2SF_inj. rewrite FloatAxioms.mul_spec. reflexivity. Qed.

Lemma mul_nan_r (x : float) : x * nan = nan.
Proof.
  apply Prim2SF_inj. rewrite FloatAxioms.mul_spec.
  change (Prim2SF nan) with S754_nan. destruct (Prim2SF x); reflexivity.
Qed.

Lemma add_nan_r (x : float) : x + nan = nan.
Proof.
  apply Prim2SF_inj. rewrite FloatAxioms.add_spec.
  change (Prim2SF nan) with S754_nan. destruct (Prim2SF x); reflexivity.
Qed.

Lemma eqb_nan_l (x : float) : (nan =? x) = false.
Proof. rewrite FloatAxioms.eqb_spec. reflexivity. Qed.

Lemma Math_atan2_nan_r (js : Engine) (y : float) : Math_atan2 js y nan = nan.
Proof.
  unfold Math_atan2. replace (is_nan nan) with true by reflexivity.
  rewrite orb_true_r. reflexivity.
Qed.

Lemma distanceOf_of_nan (js : Engine) : distanceOf js nan = nan.
Proof. reflexivity. Qed.

(** The square root of a negative number is [NaN]. *)
Lemma sqrt_negative (x : float) : (x <? 0) = true -> Math_sqrt x = nan.
Proof.
  unfold Math_sqrt. rewrite FloatAxioms.ltb_spec. intro H.
  apply Prim2SF_inj. rewrite FloatAxioms.sqrt_spec.
  change (Prim2SF 0) with (S754_zero false) in H.
  destruct (Prim2SF x) as [s | s | | s m e]; cbn in *; try discriminate;
    destruct s; [reflexivity | discriminate | reflexivity | discriminate].
Qed.

(** ** Finite numbers *)

Lemma positive_finite (h : float) :
  (0 <? h) = true -> (h <? infinity) = true ->
  exists (m : positive) (e : Z), Prim2SF h = S754_finite false m e.
Proof.
  rewrite !FloatAxioms.ltb_spec.
  change (Prim2SF 0) with (S754_zero false).
  change (Prim2SF infinity) with (S754_infinity false).
  destruct (Prim2SF h) as [s | s | | s m e]; cbn; try discriminate.
  - destruct s; discriminate.
  - destruct s; [discriminate|]. intros _ _. exists m, e. reflexivity.
Qed.

Lemma add_zero_l (h : float) (s : bool) (m : positive) (e : Z) :
  Prim2SF h = S754_finite s m e -> 0 + h = h.
Proof.
  intro H. apply Prim2SF_inj. rewrite FloatAxioms.add_spec, H. reflexivity.
Qed.

Lemma sub_zero_r (h : float) (s : bool) (m : positive) (e : Z) :
  Prim2SF h = S754_finite s m e -> h - 0 = h.
Proof.
  intro H. apply Prim2SF_inj. rewrite FloatAxioms.sub_spec, H. reflexivity.
Qed.

Lemma leb_refl_finite (h : float) (s : bool) (m : positive) (e : Z) :
  Prim2SF h = S754_finite s m e -> (h <=? h) = true.
Proof.
  intro H. rewrite FloatAxioms.leb_spec, H. unfold SFleb.
  rewrite SFcompare_refl by discriminate. reflexivity.
Qed.

Lemma leb_zero_positive (h : float) : (0 <? h) = true -> (h <=? 0) = false.
Proof.
  rewrite FloatAxioms.ltb_spec, FloatAxioms.leb_spec.
  change (Prim2SF 0) with (S754_zero false).
  destruct (Prim2SF h) as [s | s | | s m e]; cbn; try discriminate;
    destruct s; cbn; congruence.
Qed.

Lemma div_eucl_shiftl (m : positive) :
  Z.div_eucl (Z.shiftl (Z.pos m) 53) (Z.pos m) = (Z.shiftl 1 53, 0%Z).
Proof.
  assert (E : forall a b, Z.div_eucl a b = (Z.div a b, Z.modulo a b)).
  { intros a b. unfold Z.div, Z.modulo. destruct (Z.div_eucl a b). reflexivity. }
  rewrite E, !Z.shiftl_mul_pow2 by lia.
  rewrite (Z.mul_comm (Z.pos m)), Z.div_mul, Z.mod_mul by lia.
  rewrite Z.mul_1_l. reflexivity.
Qed.

(** A finite number that is not zero, divided by itself, is exactly 1: the
    quotient of the mantissas is a power of two, and nothing is rounded. *)
Lemma div_self (h : float) (s : bool) (m : positive) (e : Z) :
  Prim2SF h = S754_finite s m e -> h / h = 1.
Proof.
  intro H. apply Prim2SF_inj. rewrite FloatAxioms.div_spec, H.
  unfold SF64div, SFdiv, SFdiv_core_binary.
  rewrite !Z.sub_diag.
  change (Z.min (fexp prec emax 0) 0) with (-53)%Z.
  change (0 - -53)%Z with 53%Z. cbv iota.
  change (IntDef.Z.div_eucl (IntDef.Z.shiftl (Z.pos m) 53) (Z.pos m))
    with (Z.div_eucl (Z.shiftl (Z.pos m) 53) (Z.pos m)).
  rewrite div_eucl_shiftl.
  assert (L : new_location (Z.pos m) 0 = loc_Exact)
    by (unfold new_location; destruct (Z.even (Z.pos m)); reflexivity).
  rewrite L. destruct s; reflexivity.
Qed.

(** ** Numbers that are not finite *)

Lemma is_finite_false (x : float) :
  is_finite x = false -> not_a_finite_number x.
Proof.
  unfold is_finite, is_nan, is_infinity, not_a_finite_number.
  rewrite !FloatAxioms.eqb_spec, FloatAxioms.abs_spec.
  change (Prim2SF infinity) with (S754_infinity false).
  destruct (Prim2SF x) as [s | s | | s m e] eqn:E; intro H.
  - destruct s; discriminate.
  - right. destruct s; [right | left]; apply Prim2SF_inj; rewrite E; reflexivity.
  - left. apply Prim2SF_inj. rewrite E. reflexivity.
  - exfalso. unfold SFeqb in H. rewrite SFcompare_refl in H by discriminate.
    cbn in H. discriminate.
Qed.

(** A difference with an operand that is not finite is not finite. *)
Lemma sub_keeps_not_finite (x y : float) :
  not_a_finite_number x \/ not_a_finite_number y ->
  not_a_finite_number (x - y).
Proof.
  assert (R : forall z, Prim2SF z = S754_nan \/ Prim2SF z = S754_infinity false
                        \/ Prim2SF z = S754_infinity true ->
                        not_a_finite_number z).
  { intros z [H | [H | H]]; [left | right; left | right; right];
      apply Prim2SF_inj; rewrite H; reflexivity. }
  intros [[-> | [-> | ->]] | [-> | [-> | ->]]]; apply R;
    rewrite FloatAxioms.sub_spec;
    [ change (Prim2SF nan) with S754_nan
    | change (Prim2SF infinity) with (S754_infinity false)
    | change (Prim2SF neg_infinity) with (S754_infinity true)
    | change (Prim2SF nan) with S754_nan
    | change (Prim2SF infinity) with (S754_infinity false)
    | change (Prim2SF neg_infinity) with (S754_infinity true) ];
    (destruct (Prim2SF x) as [s | s | | s m e]
     || destruct (Prim2SF y) as [s | s | | s m e]);
    try destruct s; cbn; auto.
Qed.

(** The radians of a number of degrees that is not finite are not finite,
    and [Math.sin] and [Math.cos] of them are [NaN]. *)
Lemma Math_sin_of_not_finite (js : Engine) (x : float) :
  not_a_finite_number x -> Math_sin js (toRad x / 2) = nan.
Proof. intros [-> | [-> | ->]]; reflexivity. Qed.

Lemma Math_cos_of_not_finite (js : Engine) (x : float) :
  not_a_finite_number x -> Math_cos js (toRad x) = nan.
Proof. intros [-> | [-> | ->]]; reflexivity. Qed.

(** ** The order of the numbers *)

Lemma SFleb_trans (x y z : spec_float) :
  SFleb x y = true -> SFleb y z = true -> SFleb x z = true.
Proof.
  unfold SFleb.
  destruct x as [sx | sx | | sx mx ex], y as [sy | sy | | sy my ey],
           z as [sz | sz | | sz mz ez]; cbn;
    try discriminate; try reflexivity;
    try (destruct sx; try discriminate; try reflexivity);
    try (destruct sy; try discriminate; try reflexivity);
    try (destruct sz; try discriminate; try reflexivity).
  all: try (intros; reflexivity).
  all: change (PosDef.Pos.compare_cont Eq mx my) with (Pos.compare mx my);
    change (PosDef.Pos.compare_cont Eq my mz) with (Pos.compare my mz);
    change (PosDef.Pos.compare_cont Eq mx mz) with (Pos.compare mx mz);
    destruct (Z.compare_spec ex ey), (Z.compare_spec ey ez),
             (Z.compare_spec ex ez);
    try lia; cbn; try discriminate; try reflexivity;
    destruct (Pos.compare_spec mx my), (Pos.compare_spec my mz),
             (Pos.compare_spec mx mz);
    cbn; try discriminate; try reflexivity; lia.
Qed.


Lemma leb_trans (x y z : float) :
  (x <=? y) = true -> (y <=? z) = true -> (x <=? z) = true.
Proof. rewrite !FloatAxioms.leb_spec. apply SFleb_trans. Qed.



(** ** A sum of lengths is not below its first term

    The sum of two numbers that are not negative is the exact sum, rounded
    to the nearest number; the first term is a number, so the rounded sum is
    not below it.  The proof follows [SFadd]: the mantissas are aligned and
    added, the sum is shifted right until it has 53 digits, rounded, and
    shifted once more if the rounding carried. *)

Local Open Scope Z_scope.

Lemma digits2_size (m : positive) : digits2_pos m = Pos.size m.
Proof. induction m; cbn; congruence. Qed.

Lemma digits_bounds (m : positive) :
  2 ^ (mantissaDigits m - 1) <= Zpos m < 2 ^ mantissaDigits m.
Proof.
  unfold mantissaDigits. rewrite digits2_size.
  pose proof (Pos.size_gt m) as G. pose proof (Pos.size_le m) as L.
  apply Pos2Z.pos_lt_pos in G. apply Pos2Z.pos_le_pos in L.
  rewrite Pos2Z.inj_pow in G, L.
  change (Z.pos m~0) with (2 * Z.pos m) in L.
  split; [|exact G].
  replace (Z.pos (Pos.size m)) with (Z.pos (Pos.size m) - 1 + 1) in L by lia.
  rewrite Z.pow_add_r in L by lia. lia.
Qed.

(** A shift to the right by one digit halves the mantissa, and a shift by
    [p] digits divides it by [2 ^ p]. *)
Lemma shr_1_m (mrs : shr_record) :
  0 <= shr_m mrs -> shr_m (shr_1 mrs) = shr_m mrs / 2.
Proof.
  destruct mrs as [m r s]. cbn [shr_m]. intro H.
  destruct m as [| p | p]; [reflexivity | | lia].
  destruct p as [p | p |]; cbn [shr_1 shr_m].
  - apply Z.div_unique with (r := 1); lia.
  - apply Z.div_unique with (r := 0); lia.
  - reflexivity.
Qed.

Lemma iter_shr_m (p : positive) :
  forall mrs : shr_record,
    0 <= shr_m mrs ->
    shr_m (SpecFloat.iter_pos shr_1 p mrs) = shr_m mrs / 2 ^ Zpos p.
Proof.
  assert (P : forall a b, 0 <= a -> 0 < b -> 0 <= a / b)
    by (intros; apply Z.div_pos; assumption).
  assert (Q : forall n, 0 < 2 ^ Zpos n)
    by (intro n; apply Z.pow_pos_nonneg; lia).
  induction p as [p IH | p IH |]; intros mrs H; cbn [SpecFloat.iter_pos].
  - assert (N1 : 0 <= shr_m (shr_1 mrs))
      by (rewrite shr_1_m by exact H; apply P; lia).
    assert (N2 : 0 <= shr_m (SpecFloat.iter_pos shr_1 p (shr_1 mrs)))
      by (rewrite IH by exact N1; apply P; [exact N1 | apply Q]).
    rewrite (IH _ N2), (IH _ N1), (shr_1_m _ H).
    rewrite !Z.div_div by (pose proof (Q p); lia).
    f_equal. change 2 with (2 ^ 1) at 1. rewrite <- !Z.pow_add_r by lia.
    f_equal. lia.
  - assert (N2 : 0 <= shr_m (SpecFloat.iter_pos shr_1 p mrs))
      by (rewrite IH by exact H; apply P; [exact H | apply Q]).
    rewrite (IH _ N2), (IH _ H).
    rewrite !Z.div_div by (pose proof (Q p); lia).
    f_equal. rewrite <- Z.pow_add_r by lia. f_equal. lia.
  - rewrite shr_1_m by exact H. reflexivity.
Qed.

(** The shift that brings a mantissa to its format: the new exponent, and
    the new mantissa. *)
Lemma shr_fexp_spec (m : positive) (e : Z) :
  snd (shr_fexp prec emax (Zpos m) e loc_Exact)
  = Z.max (fexp prec emax (mantissaDigits m + e)) e /\
  shr_m (fst (shr_fexp prec emax (Zpos m) e loc_Exact))
  = Zpos m / 2 ^ (snd (shr_fexp prec emax (Zpos m) e loc_Exact) - e).
Proof.
  unfold shr_fexp, shr. cbn [Zdigits2 shr_record_of_loc]. fold (mantissaDigits m).
  destruct (fexp prec emax (mantissaDigits m + e) - e) as [| p | p] eqn:E;
    cbn [fst snd shr_m].
  - split; [lia|]. rewrite Z.sub_diag. cbn. rewrite Z.div_1_r. reflexivity.
  - split; [lia|]. rewrite iter_shr_m by (cbn; lia). cbn [shr_m].
    f_equal. f_equal. lia.
  - split; [lia|]. rewrite Z.sub_diag. cbn. rewrite Z.div_1_r. reflexivity.
Qed.

Lemma round_nearest_even_ge (m : Z) (l : location) :
  m <= round_nearest_even m l.
Proof.
  destruct l as [| [| |]]; cbn; try lia. destruct (Z.even m); lia.
Qed.

(** The shift never removes all the digits of a mantissa. *)
Lemma shift_le_digits (q : positive) (e : Z) :
  SpecFloat.emin prec emax <= e ->
  2 ^ (Z.max (fexp prec emax (mantissaDigits q + e)) e - e) <= Zpos q.
Proof.
  intro He. pose proof (digits_bounds q) as [L _].
  assert (P : 0 < mantissaDigits q) by (unfold mantissaDigits; lia).
  apply Z.le_trans with (2 ^ (mantissaDigits q - 1)); [|exact L].
  apply Z.pow_le_mono_r; [lia|].
  unfold fexp, SpecFloat.emin, prec, emax in *. lia.
Qed.

(** Rounding [s * 2 ^ ez] gives a number that is not below a number of the
    format that is not above [s * 2 ^ ez]. *)
Lemma binary_round_ge (s mx : positive) (ez ex : Z) :
  SpecFloat.bounded prec emax mx ex = true ->
  ez <= ex -> SpecFloat.emin prec emax <= ez ->
  Zpos mx * 2 ^ (ex - ez) <= Zpos s ->
  SFleb (S754_finite false mx ex) (binary_round prec emax false s ez) = true.
Proof.
  intros B Hez Hmin Hs.
  unfold SpecFloat.bounded, canonical_mantissa in B. apply andb_true_iff in B.
  destruct B as [Can _]. apply Z.eqb_eq in Can. fold (mantissaDigits mx) in Can.
  pose proof (digits_bounds mx) as [Lmx Umx].
  pose proof (digits_bounds s) as [Ls Us].
  assert (Dle : mantissaDigits mx + ex <= mantissaDigits s + ez).
  { assert (H : 2 ^ (mantissaDigits mx - 1 + (ex - ez)) < 2 ^ mantissaDigits s).
    { rewrite Z.pow_add_r by (unfold mantissaDigits; lia).
      apply Z.le_lt_trans with (Zpos s); [|exact Us].
      apply Z.le_trans with (Zpos mx * 2 ^ (ex - ez)); [|exact Hs].
      apply Z.mul_le_mono_nonneg_r; [apply Z.pow_nonneg; lia | exact Lmx]. }
    assert (K : mantissaDigits mx - 1 + (ex - ez) < mantissaDigits s)
      by (apply (Z.pow_lt_mono_r_iff 2);
          [lia | unfold mantissaDigits; lia | exact H]).
    lia. }
  set (t := fexp prec emax (mantissaDigits s + ez)).
  assert (Ht : ex <= t).
  { unfold t. rewrite <- Can. unfold fexp. lia. }
  unfold binary_round. fold (mantissaDigits s). fold t.
  assert (A : shl_align s ez t = (s, ez)).
  { unfold shl_align. destruct (t - ez) eqn:E; try reflexivity. lia. }
  rewrite A. unfold binary_round_aux.
  destruct (shr_fexp_spec s ez) as [E1 M1]. fold t in E1.
  pose proof (shift_le_digits s ez Hmin) as S1. fold t in S1.
  destruct (shr_fexp prec emax (Zpos s) ez loc_Exact) as [mrs' e'].
  cbn [fst snd] in E1, M1.
  assert (Et : e' = t) by lia. clear E1. subst e'.
  replace (Z.max t ez) with t in S1 by lia.
  assert (P1 : 1 <= shr_m mrs').
  { rewrite M1. apply Z.div_le_lower_bound; [apply Z.pow_pos_nonneg; lia|].
    rewrite Z.mul_1_r. exact S1. }
  pose proof (round_nearest_even_ge (shr_m mrs') (loc_of_shr_record mrs')) as R.
  destruct (round_nearest_even (shr_m mrs') (loc_of_shr_record mrs'))
    as [| q | q] eqn:Rq; try lia.
  assert (Tmin : SpecFloat.emin prec emax <= t)
    by (unfold t, fexp; lia).
  destruct (shr_fexp_spec q t) as [E2 M2].
  pose proof (shift_le_digits q t Tmin) as S2.
  destruct (shr_fexp prec emax (Zpos q) t loc_Exact) as [mrs'' e''].
  cbn [fst snd] in E2, M2. rewrite <- E2 in S2.
  assert (Te : t <= e'') by lia.
  assert (P2 : 1 <= shr_m mrs'').
  { rewrite M2. apply Z.div_le_lower_bound; [apply Z.pow_pos_nonneg; lia|].
    rewrite Z.mul_1_r. exact S2. }
  destruct (shr_m mrs'') as [| m3 | m3] eqn:E3; try lia.
  destruct (Z.leb e'' (emax - prec)); [|reflexivity].
  unfold SFleb. cbn [SFcompare].
  destruct (Z.compare_spec ex e'') as [Ee | Ee | Ee]; [| reflexivity | lia].
  assert (Tx : t = ex) by lia.
  replace (e'' - t) with 0 in M2 by lia.
  rewrite Z.pow_0_r, Z.div_1_r in M2.
  assert (Hm : Zpos mx <= Zpos m3).
  { rewrite M2. apply Z.le_trans with (shr_m mrs'); [|lia].
    rewrite M1. apply Z.div_le_lower_bound; [apply Z.pow_pos_nonneg; lia|].
    replace (t - ez) with (ex - ez) by lia. lia. }
  change (PosDef.Pos.compare_cont Eq mx m3) with (Pos.compare mx m3).
  destruct (Pos.compare_spec mx m3); try reflexivity. lia.
Qed.

Lemma shl_align_value (m : positive) (e ez : Z) :
  ez <= e -> Zpos (fst (shl_align m e ez)) = Zpos m * 2 ^ (e - ez).
Proof.
  intro H. unfold shl_align. destruct (ez - e) as [| p | p] eqn:E; cbn [fst].
  - replace (e - ez) with 0 by lia. rewrite Z.pow_0_r. lia.
  - lia.
  - replace (e - ez) with (Zpos p) by lia.
    change (PosDef.Pos.iter xO m p) with (shift_pos p m).
    rewrite shift_pos_correct, Zpower_pos_nat, Zpower_nat_Z, positive_nat_Z.
    lia.
Qed.

Lemma bounded_emin (m : positive) (e : Z) :
  SpecFloat.bounded prec emax m e = true -> SpecFloat.emin prec emax <= e.
Proof.
  unfold SpecFloat.bounded, canonical_mantissa. intro B. apply andb_true_iff in B.
  destruct B as [Can _]. apply Z.eqb_eq in Can. unfold fexp in Can. lia.
Qed.

Lemma SFadd_finite_ge (mx my : positive) (ex ey : Z) :
  SpecFloat.bounded prec emax mx ex = true ->
  SpecFloat.bounded prec emax my ey = true ->
  SFleb (S754_finite false mx ex)
        (SFadd prec emax (S754_finite false mx ex) (S754_finite false my ey))
  = true.
Proof.
  intros Bx By.
  pose proof (bounded_emin mx ex Bx). pose proof (bounded_emin my ey By).
  unfold SFadd. cbn [cond_Zopp].
  pose proof (shl_align_value mx ex (Z.min ex ey) ltac:(lia)) as Vx.
  set (a := fst (shl_align mx ex (Z.min ex ey))) in *.
  set (b := fst (shl_align my ey (Z.min ex ey))) in *.
  change (Zpos a + Zpos b) with (Zpos (a + b)). cbn [binary_normalize].
  apply binary_round_ge; [exact Bx | lia | lia |].
  rewrite Pos2Z.inj_add. lia.
Qed.

Lemma SFadd_monotone (x y : spec_float) :
  valid_binary x = true -> valid_binary y = true ->
  SFleb (S754_zero false) x = true -> SFleb (S754_zero false) y = true ->
  SFleb x (SFadd prec emax x y) = true.
Proof.
  intros Vx Vy Px Py.
  destruct x as [sx | sx | | sx mx ex]; try discriminate;
    destruct y as [sy | sy | | sy my ey]; try discriminate;
    try (destruct sx; try discriminate); try (destruct sy; try discriminate);
    try reflexivity.
  - cbn [SFadd]. unfold SFleb. rewrite SFcompare_refl by discriminate.
    reflexivity.
  - cbn [SFadd]. unfold SFleb. rewrite SFcompare_refl by discriminate.
    reflexivity.
  - apply SFadd_finite_ge; assumption.
Qed.

Local Close Scope Z_scope.

Lemma add_monotone (x y : float) :
  isLength x -> isLength y -> (x <=? x + y) = true.
Proof.
  unfold isLength.
  rewrite !FloatAxioms.leb_spec, FloatAxioms.add_spec.
  change (Prim2SF 0) with (S754_zero false).
  apply SFadd_monotone; apply Prim2SF_valid.
Qed.

(** ** The loop of the path sampler *)


(** A length that is not positive is a zero, and adding it changes no
    comparison. *)
Lemma zero_or_positive (h : float) :
  isLength h -> (0 <? h) = false -> exists s : bool, Prim2SF h = S754_zero s.
Proof.
  unfold isLength. rewrite FloatAxioms.leb_spec, FloatAxioms.ltb_spec.
  change (Prim2SF 0) with (S754_zero false).
  destruct (Prim2SF h) as [s | s | | s m e]; cbn; try discriminate.
  - intros _ _. exists s. reflexivity.
  - destruct s; discriminate.
  - destruct s; discriminate.
Qed.

Lemma leb_add_zero (d covered h : float) :
  isLength covered -> isLength h -> (0 <? h) = false ->
  (d <=? covered + h) = (d <=? covered).
Proof.
  intros C H Z. destruct (zero_or_positive h H Z) as [s E].
  unfold isLength in C.
  rewrite !FloatAxioms.leb_spec, FloatAxioms.add_spec, E in *.
  change (Prim2SF 0) with (S754_zero false) in C.
  unfold SF64add, SFleb in *.
  destruct (Prim2SF covered) as [sc | sc | | sc mc ec]; cbn in *;
    try discriminate; try reflexivity.
  destruct sc, s; cbn; destruct (Prim2SF d) as [sd | sd | | sd md ed];
    reflexivity.
Qed.

(** When the loop returns, it returns from a segment of positive length
    that the distance has not reached before. *)
Lemma walkPath_segment (js : Engine) (d : float) :
  forall (path : list LatLng) (covered : float) (r : LatLng),
    isLength covered -> (d <=? covered) = false ->
    Forall isLength (segmentLengths js path) ->
    walkPath js d covered path = Some r ->
    exists (before : list LatLng) (start end_ : LatLng) (after : list LatLng),
      path = before ++ start :: end_ :: after /\
      (0 <? haversineDistance js start end_) = true /\
      (d <=? lengthFrom js covered (before ++ [start])) = false /\
      geb (lengthFrom js covered (before ++ [start])
           + haversineDistance js start end_) d = true /\
      r = {| lat := lat start + (lat end_ - lat start)
                    * ((d - lengthFrom js covered (before ++ [start]))
                       / haversineDistance js start end_);
             lng := lng start + (lng end_ - lng start)
                    * ((d - lengthFrom js covered (before ++ [start]))
                       / haversineDistance js start end_) |}.
Proof.
  induction path as [| start rest IH]; intros covered r C B F W; [discriminate|].
  destruct rest as [| end_ rest']; [discriminate|].
  cbn [walkPath segmentLengths] in W, F.
  inversion F as [| h l Fh Fl]; subst.
  destruct (geb (covered + haversineDistance js start end_) d) eqn:G.
  - injection W as <-.
    exists [], start, end_, rest'. cbn [app lengthFrom].
    split; [reflexivity|].
    split; [|split; [exact B | split; [exact G | reflexivity]]].
    destruct (0 <? haversineDistance js start end_) eqn:P; [reflexivity|].
    unfold geb in G. rewrite (leb_add_zero d covered _ C Fh P) in G.
    congruence.
  - assert (M : (covered <=? covered + haversineDistance js start end_) = true)
      by (apply add_monotone; assumption).
    assert (C1 : isLength (covered + haversineDistance js start end_))
      by exact (leb_trans _ _ _ C M).
    destruct (IH _ r C1 G Fl W)
      as [before [s [e [after [Hp [P [B' [G' R]]]]]]]].
    exists (start :: before), s, e, after.
    assert (L : lengthFrom js covered ((start :: before) ++ [s])
                = lengthFrom js (covered + haversineDistance js start end_)
                    (before ++ [s])).
    { destruct before as [| b before'];
        cbn [app] in Hp; injection Hp as -> _; reflexivity. }
    rewrite L. split; [rewrite Hp; reflexivity|].
    split; [exact P|]. split; [exact B'|]. split; [exact G' | exact R].
Qed.

Lemma last_In (p0 : LatLng) (rest : list LatLng) (d : LatLng) :
  In (last (p0 :: rest) d) (p0 :: rest).
Proof.
  revert p0. induction rest as [| q tl IH]; intro p0; [left; reflexivity|].
  right. change (last (p0 :: q :: tl) d) with (last (q :: tl) d). apply IH.
Qed.


(** The two points 5e-324 degrees apart are at distance 0 in every engine:
    the difference of the latitudes is lost when it is turned into
    radians. *)
Lemma zero_length_segment (js : Engine) :
  haversineDistance js origin nextToOrigin = 0.
Proof. reflexivity. Qed.

End Binary64Facts.

(* ================================================================== *)
(** * The specification of utils.js, on binary64 numbers *)
(* ================================================================== *)

Module Binary64Spec.

Import Binary64 Binary64Facts.
Local Open Scope float_scope.

(** ** The geodesic distance *)

(** [haversineDistance] is [distanceOf] at the haversine of its two
    points. *)
Remark haversineDistance_tail (js : Engine) (A B : LatLng) :
  haversineDistance js A B = distanceOf js (haversineTerm js A B).
Proof. reflexivity. Qed.

(** C6 fails in the code.  Nothing keeps the haversine [a] within 0 and 1:
    once rounding has put [a] above 1, so that [1 - a] is negative, the
    square root of [1 - a] is [NaN], and the distance is [NaN] in every
    engine.  [NaN] equals no number, itself included, so the distance from
    A to B does not equal the distance from B to A.  For the points
    (-0.73991, 17.40558) and (0.73991, -162.59442), which lie opposite each
    other on the globe, [a] is 1.0000000000000002
    ([haversineDistance_antipodes] below). *)
Theorem distanceOf_beyond_unit (js : Engine) (a : float) :
  (1 - a <? 0) = true ->
  distanceOf js a = nan /\
  forall d : float, (distanceOf js a =? d) = false.
Proof.
  intro H.
  assert (N : distanceOf js a = nan).
  { unfold distanceOf. rewrite (sqrt_negative (1 - a) H), Math_atan2_nan_r.
    reflexivity. }
  split; [exact N|]. intro d. rewrite N. apply eqb_nan_l.
Qed.

Lemma distanceOf_beyond_unit_witness :
  (1 - 0x1.0000000000001p+0 <? 0) = true /\
  forall js : Engine,
    distanceOf js 0x1.0000000000001p+0 = nan /\
    (distanceOf js 0x1.0000000000001p+0 =? distanceOf js 0x1.0000000000001p+0)
    = false.
Proof.
  split; [reflexivity|]. intro js.
  destruct (distanceOf_beyond_unit js 0x1.0000000000001p+0 eq_refl) as [N E].
  split; [exact N | apply E].
Defined.

(** The two points opposite each other, in an engine that rounds the sine
    and the cosine correctly where this distance needs them: the haversine
    is 1.0000000000000002 in both orders, both distances are [NaN], and the
    comparison of the two is false. *)
Lemma haversineDistance_antipodes (js : Engine) :
  roundsAtAntipodes js ->
  haversineTerm js antipodeA antipodeB = 0x1.0000000000001p+0 /\
  haversineTerm js antipodeB antipodeA = 0x1.0000000000001p+0 /\
  haversineDistance js antipodeA antipodeB = nan /\
  haversineDistance js antipodeB antipodeA = nan /\
  (haversineDistance js antipodeA antipodeB
   =? haversineDistance js antipodeB antipodeA) = false.
Proof.
  intros [S1 [S2 [S3 [S4 [C1 C2]]]]].
  assert (AB : haversineTerm js antipodeA antipodeB = 0x1.0000000000001p+0).
  { vm_compute. vm_compute in S1, S4, C1, C2. rewrite S1, S4, C1, C2.
    reflexivity. }
  assert (BA : haversineTerm js antipodeB antipodeA = 0x1.0000000000001p+0).
  { vm_compute. vm_compute in S2, S3, C1, C2. rewrite S2, S3, C1, C2.
    reflexivity. }
  assert (N : forall a : float,
             a = 0x1.0000000000001p+0 -> distanceOf js a = nan).
  { intros a ->. reflexivity. }
  split; [exact AB|]. split; [exact BA|].
  unfold haversineDistance. rewrite (N _ AB), (N _ BA).
  repeat split.
Qed.

(** ** The path sampler *)




(** At a distance equal to a positive total length the loop returns from the
    last segment, where it interpolates with the ratio 1, and the product
    and the sum round: on the path from (0.1, 0) to (-0.3, 0) the sample has
    the latitude -0.30000000000000004, in every engine for which the length
    of the segment is a positive finite number. *)
Lemma getPositionAlongPath_at_total (js : Engine) :
  let h := haversineDistance js tenthNorth threeTenthsSouth in
  (0 <? h) = true -> (h <? infinity) = true ->
  totalLength js [tenthNorth; threeTenthsSouth] = h /\
  getPositionAlongPath js (Some [tenthNorth; threeTenthsSouth]) h
  = Some {| lat := -0x1.3333333333334p-2; lng := 0 |} /\
  (-0x1.3333333333334p-2 =? lat threeTenthsSouth) = false.
Proof.
  intros h P F. destruct (positive_finite h P F) as [m [e E]].
  assert (T : 0 + h = h) by exact (add_zero_l h false m e E).
  split; [|split; [|reflexivity]].
  - unfold totalLength. cbn [lengthFrom]. fold h. exact T.
  - cbn [getPositionAlongPath walkPath]. fold h.
    rewrite (leb_zero_positive h P), T. unfold geb.
    rewrite (leb_refl_finite h false m e E), (sub_zero_r h false m e E),
      (div_self h false m e E).
    reflexivity.
Qed.

(** With the engine of the small angles the segment is 44.48 km long. *)
Example getPositionAlongPath_at_total_smallAngles :
  getPositionAlongPath smallAngles (Some [tenthNorth; threeTenthsSouth])
    (totalLength smallAngles [tenthNorth; threeTenthsSouth])
  = Some {| lat := -0x1.3333333333334p-2; lng := 0 |}.
Proof.
  destruct (getPositionAlongPath_at_total smallAngles eq_refl eq_refl)
    as [T [E _]].
  rewrite T. exact E.
Qed.

End Binary64Spec.

(* ================================================================== *)
(** * The specification of utils.js *)
(* ================================================================== *)

Module UtilsSpec.

Import Utils JSFacts UtilsFacts.
Local Open Scope num_scope.

(** C5. [fetchRoute] returns on every outcome: the message of a rejected
    request; "No route found" when the code is not "Ok" or the routes are
    missing or empty; and on success the coordinates of the first route,
    as [{ lat, lng }], with its distance in kilometres. *)
Theorem fetchRoute_outcomes (start end_ : LatLng) (net : FetchOutcome) :
  (forall msg : string,
      net = Rejected msg -> fetchRoute start end_ net = RouteError msg) /\
  (forall data : OsrmBody,
      net = Responded data ->
      code data <> "Ok"%string \/ routes data = None \/ routes data = Some [] ->
      fetchRoute start end_ net = RouteError "No route found") /\
  (forall (data : OsrmBody) (route : OsrmRoute) (others : list OsrmRoute),
      net = Responded data ->
      code data = "Ok"%string -> routes data = Some (route :: others) ->
      fetchRoute start end_ net
      = RouteOk (map (fun coord => {| lat := snd coord; lng := fst coord |})
                     (geometry_coordinates route))
                (route_distance route / #1000)).
Proof.
  split; [intros msg ->; reflexivity|].
  split.
  - intros data -> H. unfold fetchRoute, no_routes. cbn [await_json bind].
    destruct (String.eqb (code data) "Ok") eqn:E; [|reflexivity].
    apply String.eqb_eq in E.
    destruct H as [H | [H | H]]; [contradiction | |]; rewrite H; reflexivity.
  - intros data route others -> Hc Hr.
    unfold fetchRoute, no_routes, first_route. cbn [await_json bind].
    rewrite Hc, Hr. reflexivity.
Qed.

Lemma fetchRoute_outcomes_witness :
  fetchRoute {| lat := #48; lng := #13 |} {| lat := #49; lng := #14 |}
             (Rejected "Failed to fetch")
  = RouteError "Failed to fetch" /\
  fetchRoute {| lat := #48; lng := #13 |} {| lat := #49; lng := #14 |}
             (Responded {| code := "NoRoute"; routes := Some [] |})
  = RouteError "No route found" /\
  fetchRoute {| lat := #48; lng := #13 |} {| lat := #49; lng := #14 |}
             (Responded
                {| code := "Ok";
                   routes := Some [ {| geometry_coordinates := [ (#13, #48); (#14, #49) ];
                                       route_distance := #1500 |} ] |})
  = RouteOk [ {| lat := #48; lng := #13 |}; {| lat := #49; lng := #14 |} ]
            (#1500 / #1000).
Proof.
  destruct (fetchRoute_outcomes
              {| lat := #48; lng := #13 |} {| lat := #49; lng := #14 |}
              (Rejected "Failed to fetch")) as [Rej _].
  destruct (fetchRoute_outcomes
              {| lat := #48; lng := #13 |} {| lat := #49; lng := #14 |}
              (Responded {| code := "NoRoute"; routes := Some [] |}))
    as [_ [NoRoute _]].
  destruct (fetchRoute_outcomes
              {| lat := #48; lng := #13 |} {| lat := #49; lng := #14 |}
              (Responded
                 {| code := "Ok";
                    routes :=
                      Some [ {| geometry_coordinates := [ (#13, #48); (#14, #49) ];
                                route_distance := #1500 |} ] |}))
    as [_ [_ Success]].
  split; [exact (Rej _ eq_refl)|].
  split.
  - apply (NoRoute _ eq_refl). left. cbn. discriminate.
  - exact (Success _ _ [] eq_refl eq_refl eq_refl).
Defined.

End UtilsSpec.

(* ================================================================== *)
(** * The specification of the progress state controller *)
(* ================================================================== *)

Module AppSpec.

Import Utils App JSFacts UtilsFacts.
Local Open Scope num_scope.

(** ** Selecting points on the map *)

(** C9. Outside SETUP a click on the map or on a marker leaves the route,
    and the whole state with it, as it is. *)
Theorem route_fixed_outside_SETUP
    (latlng : LatLng) (type : MarkerType) (st : State) :
  appState st <> SETUP ->
  route (handleMapClick latlng st) = route st /\
  route (handleMarkerClick type st) = route st /\
  handleMapClick latlng st = st /\
  handleMarkerClick type st = st.
Proof.
  intro H. unfold handleMapClick, handleMarkerClick.
  destruct (appState st); [contradiction | |]; repeat split; reflexivity.
Qed.

Lemma route_fixed_outside_SETUP_witness :
  appState (setAppState TRACKING initialState) <> SETUP /\
  route (handleMapClick {| lat := #1; lng := #2 |}
                        (setAppState TRACKING initialState))
  = initialRoute /\
  route (handleMarkerClick MStart (setAppState TRACKING initialState))
  = initialRoute.
Proof.
  assert (H : appState (setAppState TRACKING initialState) <> SETUP)
    by (cbn; discriminate).
  destruct (route_fixed_outside_SETUP {| lat := #1; lng := #2 |} MStart
              (setAppState TRACKING initialState) H) as [A [B _]].
  split; [exact H|]. split; [exact A | exact B].
Defined.

(** C8, as the code has it.  In SETUP a click on the map sets [start] when
    no start is set, sets [end] when a start is set and no end, and changes
    nothing when both are set.  The initial state and the state after a
    reset hold the default start: from there the first click sets [end]
    and the second click changes nothing. *)
Theorem handleMapClick_selection (latlng : LatLng) (st : State) :
  (appState st = SETUP -> start (route st) = None ->
   route (handleMapClick latlng st)
   = {| start := Some latlng; end_ := end_ (route st);
        path := path (route st); distance := distance (route st) |}) /\
  (appState st = SETUP -> start (route st) <> None -> end_ (route st) = None ->
   route (handleMapClick latlng st)
   = {| start := start (route st); end_ := Some latlng;
        path := path (route st); distance := distance (route st) |}) /\
  (start (route st) <> None -> end_ (route st) <> None ->
   handleMapClick latlng st = st) /\
  route (handleMapClick latlng initialState)
  = {| start := Some defaultStart; end_ := Some latlng;
       path := []; distance := #0 |} /\
  route (handleMapClick latlng (resetRoute st))
  = {| start := Some defaultStart; end_ := Some latlng;
       path := []; distance := #0 |} /\
  (forall second : LatLng,
      handleMapClick second (handleMapClick latlng initialState)
      = handleMapClick latlng initialState) /\
  (forall second : LatLng,
      handleMapClick second (handleMapClick latlng (resetRoute st))
      = handleMapClick latlng (resetRoute st)).
Proof.
  split.
  { intros Ha Hs. unfold handleMapClick. rewrite Ha, Hs. reflexivity. }
  split.
  { intros Ha Hs He. unfold handleMapClick. rewrite Ha, He.
    destruct (start (route st)) eqn:S; [|contradiction].
    cbn. rewrite S. reflexivity. }
  split.
  { intros Hs He. unfold handleMapClick.
    destruct (negb (AppState_eqb (appState st) SETUP)); [reflexivity|].
    destruct (start (route st)); [|contradiction].
    destruct (end_ (route st)); [reflexivity | contradiction]. }
  repeat split; reflexivity.
Qed.

Lemma handleMapClick_selection_witness :
  appState (handleMarkerClick MStart initialState) = SETUP /\
  start (route (handleMarkerClick MStart initialState)) = None /\
  route (handleMapClick {| lat := #1; lng := #2 |}
                        (handleMarkerClick MStart initialState))
  = {| start := Some {| lat := #1; lng := #2 |}; end_ := None;
       path := []; distance := #0 |} /\
  appState initialState = SETUP /\
  start (route initialState) <> None /\
  end_ (route initialState) = None /\
  route (handleMapClick {| lat := #1; lng := #2 |} initialState)
  = {| start := Some defaultStart; end_ := Some {| lat := #1; lng := #2 |};
       path := []; distance := #0 |} /\
  end_ (route (handleMapClick {| lat := #1; lng := #2 |} initialState)) <> None /\
  handleMapClick {| lat := #3; lng := #4 |}
                 (handleMapClick {| lat := #1; lng := #2 |} initialState)
  = handleMapClick {| lat := #1; lng := #2 |} initialState.
Proof.
  destruct (handleMapClick_selection {| lat := #1; lng := #2 |}
              (handleMarkerClick MStart initialState)) as [First _].
  destruct (handleMapClick_selection {| lat := #1; lng := #2 |} initialState)
    as [_ [Second _]].
  destruct (handleMapClick_selection {| lat := #3; lng := #4 |}
              (handleMapClick {| lat := #1; lng := #2 |} initialState))
    as [_ [_ [Third _]]].
  assert (S : start (route initialState) <> None) by (cbn; discriminate).
  assert (E : end_ (route (handleMapClick {| lat := #1; lng := #2 |} initialState))
              <> None) by (cbn; discriminate).
  split; [reflexivity|]. split; [reflexivity|].
  split; [exact (First eq_refl eq_refl)|].
  split; [reflexivity|]. split; [exact S|]. split; [reflexivity|].
  split; [exact (Second eq_refl S eq_refl)|].
  split; [exact E|].
  apply Third; [cbn; discriminate | exact E].
Defined.

(** C8, as stated, fails from the initial state: the first click does not
    set [start], which keeps the default, and the second click does not set
    [end], which the first click has set. *)
Lemma handleMapClick_first_second_counterexample :
  start (route (handleMapClick {| lat := #1; lng := #2 |} initialState))
  <> Some {| lat := #1; lng := #2 |} /\
  end_ (route (handleMapClick {| lat := #3; lng := #4 |}
                 (handleMapClick {| lat := #1; lng := #2 |} initialState)))
  <> Some {| lat := #3; lng := #4 |}.
Proof.
  split; cbn; intro H; injection H as H; lra.
Qed.

(** ** Adding distance *)

Lemma parseFloat_5 : Builtins.parseFloat "5" = #(5 * 1).
Proof. reflexivity. Qed.

Lemma parseFloat_abc : Builtins.parseFloat "abc" = NaN.
Proof. reflexivity. Qed.

Lemma parseFloat_minus_3 : Builtins.parseFloat "-3" = #(- (3 * 1)).
Proof. reflexivity. Qed.

(** C10. [addDistance] leaves [totalKm] as it is: of the progress only
    [currentKm] and [percentage] change; the route is untouched as well. *)
Theorem addDistance_frame (parseFloat : string -> num) (st : State) :
  totalKm (progress (addDistance parseFloat st)) = totalKm (progress st) /\
  route (addDistance parseFloat st) = route st.
Proof.
  unfold addDistance.
  destruct (negb (isNaN (parseFloat (inputKm st)))
            && (parseFloat (inputKm st) >? #0));
    split; reflexivity.
Qed.

(** C4. In TRACKING, for an input that parses to a number greater than 0,
    [addDistance] sets [currentKm] to the minimum of [currentKm] plus the
    increment and [totalKm], so that [currentKm] does not exceed [totalKm];
    it recomputes [percentage] as the new [currentKm] divided by [totalKm];
    and it moves to CELEBRATION. *)
Theorem addDistance_valid (parseFloat : string -> num) (st : State) :
  appState st = TRACKING ->
  (parseFloat (inputKm st) >? #0) = true ->
  currentKm (progress (addDistance parseFloat st))
  = Math_min (currentKm (progress st) + parseFloat (inputKm st))
             (totalKm (progress st)) /\
  (currentKm (progress (addDistance parseFloat st))
   >? totalKm (progress (addDistance parseFloat st))) = false /\
  (isNaN (currentKm (progress st) + parseFloat (inputKm st)) = false ->
   isNaN (totalKm (progress st)) = false ->
   (currentKm (progress (addDistance parseFloat st))
    <=? totalKm (progress (addDistance parseFloat st))) = true) /\
  percentage (progress (addDistance parseFloat st))
  = currentKm (progress (addDistance parseFloat st)) / totalKm (progress st) /\
  appState (addDistance parseFloat st) = CELEBRATION.
Proof.
  intros _ Hpos. unfold addDistance.
  rewrite (gtb_not_NaN _ _ Hpos), Hpos. cbn.
  split; [reflexivity|].
  split; [apply Math_min_not_above|].
  split; [apply Math_min_le|].
  split; reflexivity.
Qed.

Lemma addDistance_valid_witness :
  appState {| appState := TRACKING; route := initialRoute;
              progress := {| currentKm := #8; totalKm := #10; percentage := #(8 / 10) |};
              inputKm := "5"; showCelebration := false; isLoading := false |}
  = TRACKING /\
  (Builtins.parseFloat "5" >? #0) = true /\
  currentKm (progress (addDistance Builtins.parseFloat
    {| appState := TRACKING; route := initialRoute;
       progress := {| currentKm := #8; totalKm := #10; percentage := #(8 / 10) |};
       inputKm := "5"; showCelebration := false; isLoading := false |}))
  = Math_min (#8 + Builtins.parseFloat "5") #10 /\
  appState (addDistance Builtins.parseFloat
    {| appState := TRACKING; route := initialRoute;
       progress := {| currentKm := #8; totalKm := #10; percentage := #(8 / 10) |};
       inputKm := "5"; showCelebration := false; isLoading := false |})
  = CELEBRATION.
Proof.
  assert (Hpos : (Builtins.parseFloat "5" >? #0) = true).
  { rewrite parseFloat_5. apply Rltb_true. lra. }
  destruct (addDistance_valid Builtins.parseFloat
    {| appState := TRACKING; route := initialRoute;
       progress := {| currentKm := #8; totalKm := #10; percentage := #(8 / 10) |};
       inputKm := "5"; showCelebration := false; isLoading := false |}
    eq_refl Hpos) as [Cur [_ [_ [_ Phase]]]].
  split; [reflexivity|]. split; [exact Hpos|].
  split; [exact Cur | exact Phase].
Defined.

(** The scenario of the specification: 8 of 10 km, 5 km added. *)
Example addDistance_clamps :
  progress (addDistance Builtins.parseFloat
    {| appState := TRACKING; route := initialRoute;
       progress := {| currentKm := #8; totalKm := #10; percentage := #(8 / 10) |};
       inputKm := "5"; showCelebration := false; isLoading := false |})
  = {| currentKm := #10; totalKm := #10; percentage := #(10 / 10) |}.
Proof.
  unfold addDistance. cbn [inputKm]. rewrite parseFloat_5.
  replace (#(5 * 1) >? #0) with true by (symmetry; apply Rltb_true; lra).
  cbn [isNaN negb andb setAppState setInputKm setProgress progress
       currentKm totalKm add Math_min leb].
  replace (Rleb (8 + 5 * 1) 10) with false by (symmetry; apply Rleb_false; lra).
  rewrite div_fin by lra. reflexivity.
Qed.

(** C7. In TRACKING, for an input that does not parse to a number, or
    parses to a number that is not positive, [addDistance] changes nothing:
    progress, phase and the rest of the state are as before. *)
Theorem addDistance_invalid (parseFloat : string -> num) (st : State) :
  appState st = TRACKING ->
  isNaN (parseFloat (inputKm st)) = true \/
  (parseFloat (inputKm st) <=? #0) = true ->
  addDistance parseFloat st = st.
Proof.
  intros _ H. unfold addDistance. destruct H as [H | H].
  - rewrite H. reflexivity.
  - rewrite (leb_gtb _ _ H), andb_false_r. reflexivity.
Qed.

Lemma addDistance_invalid_witness :
  addDistance Builtins.parseFloat (setInputKm "abc" (setAppState TRACKING initialState))
  = setInputKm "abc" (setAppState TRACKING initialState) /\
  (Builtins.parseFloat "-3" <=? #0) = true /\
  addDistance Builtins.parseFloat (setInputKm "-3" (setAppState TRACKING initialState))
  = setInputKm "-3" (setAppState TRACKING initialState).
Proof.
  assert (Hneg : (Builtins.parseFloat "-3" <=? #0) = true).
  { rewrite parseFloat_minus_3. apply Rleb_true. lra. }
  split.
  - apply (addDistance_invalid Builtins.parseFloat
             (setInputKm "abc" (setAppState TRACKING initialState)) eq_refl).
    left. reflexivity.
  - split; [exact Hneg|].
    apply (addDistance_invalid Builtins.parseFloat
             (setInputKm "-3" (setAppState TRACKING initialState)) eq_refl).
    right. exact Hneg.
Defined.

(** ** Starting the journey *)

Lemma zero_div_positive (t : num) : (t >? #0) = true -> #0 / t = #0.
Proof.
  destruct t as [r | | |]; unfold gtb; simpl; intro H; try discriminate;
    [|reflexivity].
  apply Rltb_true in H.
  replace (Reqb r 0) with false by (symmetry; apply Reqb_false; lra).
  apply Fin_eq. unfold Rdiv. ring.
Qed.

(** Where [startJourney] checks the distance: with a route distance computed
    before, and with the straight line after a failed fetch, TRACKING is
    entered with a positive [totalKm]; with a freshly fetched route it is
    entered with the distance the service reports, whatever it is. *)
Lemma startJourney_TRACKING (net : FetchOutcome) (st : State) :
  appState st = SETUP ->
  appState (startJourney net st) = TRACKING ->
  exists s e,
    start (route st) = Some s /\ end_ (route st) = Some e /\
    ((totalKm (progress (startJourney net st)) >? #0) = true \/
     (distance (route st) >? #0) = false /\
     exists coordinates dist,
       fetchRoute s e net = RouteOk coordinates dist /\
       totalKm (progress (startJourney net st)) = dist).
Proof.
  intros Hs. unfold startJourney.
  destruct (start (route st)) as [s|]; [|rewrite Hs; discriminate].
  destruct (end_ (route st)) as [e|]; [|rewrite Hs; discriminate].
  intro H. exists s, e. split; [reflexivity|]. split; [reflexivity|].
  destruct (distance (route st) >? #0) eqn:D; [left; exact D|].
  destruct (fetchRoute s e net) as [coordinates dist | msg].
  - right. split; [reflexivity|]. exists coordinates, dist. split; reflexivity.
  - destruct (haversineDistance s e >? #0) eqn:T; [left; exact T|].
    cbn in H. rewrite Hs in H. discriminate.
Qed.

Lemma readyState_eq :
  readyState
  = {| appState := SETUP;
       route := {| start := Some defaultStart; end_ := Some rideEnd;
                   path := [rideEnd; rideEnd]; distance := #0 |};
       progress := initialProgress;
       inputKm := ""; showCelebration := false; isLoading := false |}.
Proof.
  unfold readyState, calculatePreview. cbn -[div].
  rewrite div_fin by lra. replace (0 / 1000)%R with 0%R by lra. reflexivity.
Qed.

Lemma startJourney_zeroLengthRoute :
  startJourney zeroLengthRoute readyState
  = {| appState := TRACKING;
       route := {| start := Some defaultStart; end_ := Some rideEnd;
                   path := [rideEnd; rideEnd]; distance := #0 |};
       progress := {| currentKm := #0; totalKm := #0; percentage := #0 |};
       inputKm := ""; showCelebration := false; isLoading := false |}.
Proof.
  rewrite readyState_eq. unfold startJourney.
  cbn [route start end_ distance].
  rewrite (gtb_irrefl #0).
  cbn -[div]. rewrite div_fin by lra.
  replace (0 / 1000)%R with 0%R by lra. reflexivity.
Qed.

(** C3 at its failing input.  Both points are set and the preview has
    fetched a route of 0 meters, so no positive distance is there;
    [startJourney] fetches the route again, the service answers the same,
    and the phase becomes TRACKING with a total distance of 0, which is not
    a positive number. *)
Theorem startJourney_enters_TRACKING_with_zero_total :
  appState readyState = SETUP /\
  start (route readyState) = Some defaultStart /\
  end_ (route readyState) = Some rideEnd /\
  appState (startJourney zeroLengthRoute readyState) = TRACKING /\
  totalKm (progress (startJourney zeroLengthRoute readyState)) = #0 /\
  (totalKm (progress (startJourney zeroLengthRoute readyState)) >? #0) = false.
Proof.
  rewrite startJourney_zeroLengthRoute, readyState_eq.
  cbn [appState progress totalKm route start end_].
  repeat split. apply gtb_irrefl.
Qed.

(** ** The percentage *)

Lemma addDistance_after_zeroLengthRoute :
  progress
    (addDistance Builtins.parseFloat
       (setInputKm "5" (startJourney zeroLengthRoute readyState)))
  = {| currentKm := #0; totalKm := #0; percentage := NaN |}.
Proof.
  rewrite startJourney_zeroLengthRoute. unfold addDistance.
  cbn [inputKm setInputKm]. rewrite parseFloat_5.
  replace (#(5 * 1) >? #0) with true by (symmetry; apply Rltb_true; lra).
  cbn [isNaN negb andb setAppState setInputKm setProgress progress
       currentKm totalKm add Math_min leb].
  replace (Rleb (0 + 5 * 1) 0) with false by (symmetry; apply Rleb_false; lra).
  rewrite div_zero_zero. reflexivity.
Qed.

(** C2 at its failing input.  The session: a click sets the end point, the
    preview fetches a route of 0 meters, "start journey" fetches it again
    and enters TRACKING with [totalKm] 0, the rider enters 5 and adds it.
    The state is reachable, its [totalKm] is 0 and its [percentage] is
    [NaN], the value of 0 / 0, not 0. *)
Theorem percentage_NaN_reachable :
  reachable Builtins.parseFloat
    (addDistance Builtins.parseFloat
       (setInputKm "5" (startJourney zeroLengthRoute readyState))) /\
  totalKm (progress
    (addDistance Builtins.parseFloat
       (setInputKm "5" (startJourney zeroLengthRoute readyState))))
  = #0 /\
  percentage (progress
    (addDistance Builtins.parseFloat
       (setInputKm "5" (startJourney zeroLengthRoute readyState))))
  = NaN.
Proof.
  split; [|rewrite addDistance_after_zeroLengthRoute; split; reflexivity].
  assert (R1 : reachable Builtins.parseFloat (handleMapClick rideEnd initialState)).
  { eapply reachable_step; [apply reachable_initial | apply step_mapClick]. }
  assert (R2 : reachable Builtins.parseFloat readyState).
  { eapply reachable_step; [exact R1 | apply step_preview]. }
  assert (R3 : reachable Builtins.parseFloat
                 (startJourney zeroLengthRoute readyState)).
  { eapply reachable_step; [exact R2|].
    apply step_startJourney; rewrite readyState_eq;
      [reflexivity | cbn; discriminate | reflexivity]. }
  assert (R4 : reachable Builtins.parseFloat
                 (setInputKm "5" (startJourney zeroLengthRoute readyState))).
  { eapply reachable_step; [exact R3|].
    apply step_input. rewrite startJourney_zeroLengthRoute. reflexivity. }
  eapply reachable_step; [exact R4|].
  apply step_addDistance.
  - rewrite startJourney_zeroLengthRoute. reflexivity.
  - cbn. discriminate.
Qed.

(** The part of the invariant that holds: in every reachable state with a
    positive [totalKm], [percentage] is [currentKm] divided by [totalKm]. *)
Lemma percentage_of_positive_total (parseFloat : string -> num) (st : State) :
  reachable parseFloat st ->
  (totalKm (progress st) >? #0) = true ->
  percentage (progress st) = currentKm (progress st) / totalKm (progress st).
Proof.
  induction 1 as [| st st' R IH S]; intro Hpos.
  { change ((#0 >? #0) = true) in Hpos.
    rewrite (gtb_irrefl #0) in Hpos. discriminate. }
  destruct S as [latlng st | st Hs | st He | net st | net st Ha He Hl
                 | st Hr | s st Ha | st Ha Hi | st Ha Hc].
  - assert (E : progress (handleMapClick latlng st) = progress st).
    { unfold handleMapClick.
      destruct (negb (AppState_eqb (appState st) SETUP)); [reflexivity|].
      destruct (start (route st)); [destruct (end_ (route st))|]; reflexivity. }
    rewrite E in *. exact (IH Hpos).
  - assert (E : progress (handleMarkerClick MStart st) = progress st).
    { unfold handleMarkerClick.
      destruct (negb (AppState_eqb (appState st) SETUP)); reflexivity. }
    rewrite E in *. exact (IH Hpos).
  - assert (E : progress (handleMarkerClick MEnd st) = progress st).
    { unfold handleMarkerClick.
      destruct (negb (AppState_eqb (appState st) SETUP)); reflexivity. }
    rewrite E in *. exact (IH Hpos).
  - assert (E : progress (calculatePreview net st) = progress st).
    { unfold calculatePreview.
      destruct (start (route st)) as [s|]; [|reflexivity].
      destruct (end_ (route st)) as [e|]; [|reflexivity].
      destruct (AppState_eqb (appState st) SETUP
                && Nat.eqb (List.length (path (route st))) 0
                && negb (isLoading st)); [|reflexivity].
      destruct (fetchRoute s e net); reflexivity. }
    rewrite E in *. exact (IH Hpos).
  - revert Hpos. unfold startJourney.
    destruct (start (route st)) as [s|]; [|exact IH].
    destruct (end_ (route st)) as [e|]; [|exact IH].
    destruct (distance (route st) >? #0).
    { cbn. intro H. symmetry. apply zero_div_positive, H. }
    destruct (fetchRoute s e net) as [coordinates dist | msg].
    { cbn. intro H. symmetry. apply zero_div_positive, H. }
    destruct (haversineDistance s e >? #0).
    { cbn. intro H. symmetry. apply zero_div_positive, H. }
    exact IH.
  - change ((#0 >? #0) = true) in Hpos.
    rewrite (gtb_irrefl #0) in Hpos. discriminate.
  - exact (IH Hpos).
  - revert Hpos. unfold addDistance.
    destruct (negb (isNaN (parseFloat (inputKm st)))
              && (parseFloat (inputKm st) >? #0)); [|exact IH].
    cbn. reflexivity.
  - exact (IH Hpos).
Qed.

End AppSpec.

(* ================================================================== *)
(** * More about utils.js *)
(* ================================================================== *)

Module UtilsMore.

Import Utils JSFacts UtilsFacts.
Local Open Scope num_scope.

(** ** A distance that is not a number *)

Lemma walkPath_NaN (path : list LatLng) :
  forall covered : num, walkPath NaN covered path = None.
Proof.
  induction path as [| p tl IH]; intro covered; [reflexivity|].
  destruct tl as [| q rest]; [reflexivity|].
  cbn [walkPath].
  replace (covered + haversineDistance p q >=? NaN) with false
    by (destruct (covered + haversineDistance p q); reflexivity).
  apply IH.
Qed.

(** X4.  For a distance that is [NaN] every comparison fails, and the sampler
    returns the last point of a path that is not empty. *)
Theorem getPositionAlongPath_NaN (p0 : LatLng) (rest : list LatLng) :
  getPositionAlongPath (Some (p0 :: rest)) NaN = Some (last (p0 :: rest) p0).
Proof.
  unfold getPositionAlongPath. cbn [leb]. rewrite walkPath_NaN. reflexivity.
Qed.

End UtilsMore.

(* ================================================================== *)
(** * More about utils.js, on binary64 numbers *)
(* ================================================================== *)

Module Binary64More.

Import Binary64 Binary64Facts.
Local Open Scope float_scope.

(** X1.  A coordinate that is [NaN] or infinite, in either point, makes the
    distance [NaN], in every engine. *)
Theorem haversineDistance_not_finite (js : Engine) (A B : LatLng) :
  finite A && finite B = false -> haversineDistance js A B = nan.
Proof.
  intro H. unfold haversineDistance.
  enough (haversineTerm js A B = nan) as -> by apply distanceOf_of_nan.
  unfold haversineTerm, finite in *.
  apply andb_false_iff in H. destruct H as [H | H];
    apply andb_false_iff in H; destruct H as [H | H];
    apply is_finite_false in H.
  - rewrite (Math_cos_of_not_finite js _ H), !mul_nan_l. apply add_nan_r.
  - rewrite (Math_sin_of_not_finite js (lng B - lng A))
      by (apply sub_keeps_not_finite; right; exact H).
    rewrite !mul_nan_r. apply add_nan_r.
  - rewrite (Math_cos_of_not_finite js _ H), mul_nan_r, !mul_nan_l.
    apply add_nan_r.
  - rewrite (Math_sin_of_not_finite js (lng B - lng A))
      by (apply sub_keeps_not_finite; left; exact H).
    rewrite !mul_nan_r. apply add_nan_r.
Qed.

Lemma haversineDistance_not_finite_witness :
  (forall js : Engine,
      haversineDistance js tenthNorth {| lat := 0; lng := infinity |} = nan) /\
  (forall js : Engine,
      haversineDistance js {| lat := nan; lng := 0 |} tenthNorth = nan).
Proof.
  split; intro js; apply haversineDistance_not_finite; reflexivity.
Defined.

(** X2.  With segment lengths that are numbers and not negative, a sample is a
    point of the path, or the interpolation
    [start + (end - start) * ((d - covered) / segDist)] in the first segment
    whose accumulated length reaches the distance: that segment has a
    positive length, so the division is not by zero, and the distance is
    above the length accumulated before the segment. *)
Theorem getPositionAlongPath_on_segment
    (js : Engine) (path : list LatLng) (d : float) (r : LatLng) :
  Forall isLength (segmentLengths js path) ->
  getPositionAlongPath js (Some path) d = Some r ->
  In r path \/
  exists (before : list LatLng) (start end_ : LatLng) (after : list LatLng),
    path = before ++ start :: end_ :: after /\
    (0 <? haversineDistance js start end_) = true /\
    (d <=? totalLength js (before ++ [start])) = false /\
    geb (totalLength js (before ++ [start]) + haversineDistance js start end_) d
    = true /\
    r = {| lat := lat start + (lat end_ - lat start)
                  * ((d - totalLength js (before ++ [start]))
                     / haversineDistance js start end_);
           lng := lng start + (lng end_ - lng start)
                  * ((d - totalLength js (before ++ [start]))
                     / haversineDistance js start end_) |}.
Proof.
  intros F. destruct path as [| p0 rest]; [discriminate|].
  cbn [getPositionAlongPath].
  destruct (d <=? 0) eqn:L.
  { intro H. injection H as <-. left. left. reflexivity. }
  destruct (walkPath js d 0 (p0 :: rest)) as [p |] eqn:W.
  - intro H. injection H as <-. right.
    exact (walkPath_segment js d (p0 :: rest) 0 p eq_refl L F W).
  - intro H. injection H as <-. left. apply last_In.
Qed.

(** A run with the engine of the small angles: 50 km along the path from
    (0.1, 0) over (-0.3, 0) to (0, 0), whose first segment is 44.48 km
    long, ends 5.52 km into the second segment. *)
Lemma getPositionAlongPath_on_segment_witness :
  Forall isLength
    (segmentLengths smallAngles [tenthNorth; threeTenthsSouth; origin]) /\
  getPositionAlongPath smallAngles
    (Some [tenthNorth; threeTenthsSouth; origin]) 50
  = Some {| lat := -0x1.00599a1715566p-2; lng := 0 |} /\
  (In {| lat := -0x1.00599a1715566p-2; lng := 0 |}
      [tenthNorth; threeTenthsSouth; origin] \/
   exists (before : list LatLng) (start end_ : LatLng) (after : list LatLng),
     [tenthNorth; threeTenthsSouth; origin] = before ++ start :: end_ :: after /\
     (0 <? haversineDistance smallAngles start end_) = true /\
     (50 <=? totalLength smallAngles (before ++ [start])) = false /\
     geb (totalLength smallAngles (before ++ [start])
          + haversineDistance smallAngles start end_) 50 = true /\
     {| lat := -0x1.00599a1715566p-2; lng := 0 |}
     = {| lat := lat start + (lat end_ - lat start)
                 * ((50 - totalLength smallAngles (before ++ [start]))
                    / haversineDistance smallAngles start end_);
          lng := lng start + (lng end_ - lng start)
                 * ((50 - totalLength smallAngles (before ++ [start]))
                    / haversineDistance smallAngles start end_) |}).
Proof.
  assert (F : Forall isLength
                (segmentLengths smallAngles
                   [tenthNorth; threeTenthsSouth; origin]))
    by (repeat constructor).
  assert (E : getPositionAlongPath smallAngles
                (Some [tenthNorth; threeTenthsSouth; origin]) 50
              = Some {| lat := -0x1.00599a1715566p-2; lng := 0 |})
    by (vm_compute; reflexivity).
  split; [exact F|]. split; [exact E|].
  exact (getPositionAlongPath_on_segment smallAngles
           [tenthNorth; threeTenthsSouth; origin] 50 _ F E).
Defined.

(** The sample of that run is none of the three points of the path. *)
Example sample_not_a_vertex :
  ~ In {| lat := -0x1.00599a1715566p-2; lng := 0 |}
       [tenthNorth; threeTenthsSouth; origin].
Proof.
  intros [H | [H | [H | []]]];
    apply (f_equal (fun p => lat p =? -0x1.00599a1715566p-2)) in H;
    vm_compute in H; discriminate H.
Qed.

(** X5.  [interpolatePosition] clamps the progress: at 0 and below the result is
    the start itself, at 1 and above the end itself, in between the point
    [start + (end - start) * progress], coordinate by coordinate; for a
    progress that is [NaN] both coordinates of the result are [NaN]; without
    one of the points the result is [null]. *)
Theorem interpolatePosition_clamps (s e : LatLng) (progress : float) :
  ((progress <=? 0) = true ->
   interpolatePosition (Some s) (Some e) progress = Some s) /\
  ((progress <=? 0) = false -> geb progress 1 = true ->
   interpolatePosition (Some s) (Some e) progress = Some e) /\
  ((progress <=? 0) = false -> geb progress 1 = false ->
   interpolatePosition (Some s) (Some e) progress
   = Some {| lat := lat s + (lat e - lat s) * progress;
             lng := lng s + (lng e - lng s) * progress |}) /\
  interpolatePosition (Some s) (Some e) nan = Some {| lat := nan; lng := nan |} /\
  (forall p : option LatLng,
      interpolatePosition None p progress = None /\
      interpolatePosition p None progress = None).
Proof.
  unfold interpolatePosition.
  split; [intros ->; reflexivity|].
  split; [intros -> ->; reflexivity|].
  split; [intros -> ->; reflexivity|].
  split.
  - replace (nan <=? 0) with false by reflexivity.
    replace (geb nan 1) with false by reflexivity.
    rewrite !mul_nan_r, !add_nan_r. reflexivity.
  - intro p. split; [reflexivity | destruct p; reflexivity].
Qed.

Lemma interpolatePosition_clamps_witness :
  interpolatePosition (Some origin) (Some {| lat := 2; lng := 4 |}) (-1)
  = Some origin /\
  interpolatePosition (Some origin) (Some {| lat := 2; lng := 4 |}) 0.5
  = Some {| lat := 1; lng := 2 |} /\
  interpolatePosition (Some origin) (Some {| lat := 2; lng := 4 |}) 3
  = Some {| lat := 2; lng := 4 |}.
Proof.
  destruct (interpolatePosition_clamps origin {| lat := 2; lng := 4 |} (-1))
    as [Below _].
  destruct (interpolatePosition_clamps origin {| lat := 2; lng := 4 |} 0.5)
    as [_ [_ [Between _]]].
  destruct (interpolatePosition_clamps origin {| lat := 2; lng := 4 |} 3)
    as [_ [Above _]].
  split; [apply Below; reflexivity|].
  split; [|apply Above; reflexivity].
  rewrite Between by reflexivity. reflexivity.
Defined.

End Binary64More.

(* ================================================================== *)
(** * More about the progress state controller *)
(* ================================================================== *)

Module AppMore.

Import Utils App JSFacts UtilsFacts.
Local Open Scope num_scope.

(** ** What the handlers leave alone *)

Lemma handleMapClick_frame (latlng : LatLng) (st : State) :
  appState (handleMapClick latlng st) = appState st /\
  progress (handleMapClick latlng st) = progress st /\
  inputKm (handleMapClick latlng st) = inputKm st /\
  isLoading (handleMapClick latlng st) = isLoading st.
Proof.
  unfold handleMapClick.
  destruct (negb (AppState_eqb (appState st) SETUP)); [repeat split|].
  destruct (start (route st)); [destruct (end_ (route st))|]; repeat split.
Qed.

Lemma handleMarkerClick_frame (type : MarkerType) (st : State) :
  appState (handleMarkerClick type st) = appState st /\
  progress (handleMarkerClick type st) = progress st /\
  inputKm (handleMarkerClick type st) = inputKm st /\
  isLoading (handleMarkerClick type st) = isLoading st.
Proof.
  unfold handleMarkerClick.
  destruct (negb (AppState_eqb (appState st) SETUP)); repeat split.
Qed.

Lemma AppState_eqb_eq (a b : AppState) : AppState_eqb a b = true <-> a = b.
Proof. destruct a, b; split; intro H; try reflexivity; discriminate. Qed.

(** ** The preview *)

Lemma calculatePreview_keeps (net : FetchOutcome) (st : State) :
  appState (calculatePreview net st) = appState st /\
  progress (calculatePreview net st) = progress st /\
  start (route (calculatePreview net st)) = start (route st) /\
  end_ (route (calculatePreview net st)) = end_ (route st) /\
  inputKm (calculatePreview net st) = inputKm st.
Proof.
  unfold calculatePreview.
  destruct (start (route st)) as [s|] eqn:Hs; [|repeat split; assumption].
  destruct (end_ (route st)) as [e|] eqn:He; [|repeat split; assumption].
  destruct (AppState_eqb (appState st) SETUP
            && Nat.eqb (List.length (path (route st))) 0
            && negb (isLoading st)); [|repeat split; assumption].
  destruct (fetchRoute s e net); cbn; repeat split; assumption.
Qed.

Lemma calculatePreview_idle (net : FetchOutcome) (st : State) :
  appState st <> SETUP \/ path (route st) <> [] \/ isLoading st = true ->
  calculatePreview net st = st.
Proof.
  intro H. unfold calculatePreview.
  destruct (start (route st)) as [s|]; [|reflexivity].
  destruct (end_ (route st)) as [e|]; [|reflexivity].
  destruct (AppState_eqb (appState st) SETUP
            && Nat.eqb (List.length (path (route st))) 0
            && negb (isLoading st)) eqn:G; [|reflexivity].
  apply andb_true_iff in G. destruct G as [G Gl].
  apply andb_true_iff in G. destruct G as [Ga Gp].
  apply AppState_eqb_eq in Ga. apply Nat.eqb_eq in Gp.
  apply negb_true_iff in Gl.
  destruct H as [H | [H | H]]; [contradiction | | congruence].
  destruct (path (route st)); [contradiction | discriminate].
Qed.

Lemma calculatePreview_failed
    (net : FetchOutcome) (st : State) (s e : LatLng) (msg : string) :
  start (route st) = Some s -> end_ (route st) = Some e ->
  fetchRoute s e net = RouteError msg -> msg <> EmptyString ->
  route (calculatePreview net st) = route st.
Proof.
  intros Hs He F _. unfold calculatePreview. rewrite Hs, He, F.
  destruct (AppState_eqb (appState st) SETUP
            && Nat.eqb (List.length (path (route st))) 0
            && negb (isLoading st)); reflexivity.
Qed.

(** X6.  The preview touches nothing but the path, the distance and the loading
    flag; it does nothing outside SETUP, while loading, or once a path is
    there; and a fetch that fails with a message that is not empty leaves
    the route as it is. *)
Theorem calculatePreview_frame (net : FetchOutcome) (st : State) :
  appState (calculatePreview net st) = appState st /\
  progress (calculatePreview net st) = progress st /\
  start (route (calculatePreview net st)) = start (route st) /\
  end_ (route (calculatePreview net st)) = end_ (route st) /\
  (appState st <> SETUP \/ path (route st) <> [] \/ isLoading st = true ->
   calculatePreview net st = st) /\
  (forall (s e : LatLng) (msg : string),
      start (route st) = Some s -> end_ (route st) = Some e ->
      fetchRoute s e net = RouteError msg -> msg <> EmptyString ->
      route (calculatePreview net st) = route st).
Proof.
  destruct (calculatePreview_keeps net st) as [A [P [S [E _]]]].
  repeat split; try assumption.
  - apply calculatePreview_idle.
  - intros s e msg. apply calculatePreview_failed.
Qed.

Lemma calculatePreview_frame_witness :
  calculatePreview zeroLengthRoute (setAppState TRACKING initialState)
  = setAppState TRACKING initialState /\
  route (calculatePreview (Rejected "Failed to fetch")
           (handleMapClick rideEnd initialState))
  = route (handleMapClick rideEnd initialState).
Proof.
  destruct (calculatePreview_frame zeroLengthRoute
              (setAppState TRACKING initialState)) as [_ [_ [_ [_ [Noop _]]]]].
  destruct (calculatePreview_frame (Rejected "Failed to fetch")
              (handleMapClick rideEnd initialState))
    as [_ [_ [_ [_ [_ Failed]]]]].
  split.
  - apply Noop. left. cbn. discriminate.
  - apply (Failed defaultStart rideEnd "Failed to fetch"%string);
      [reflexivity | reflexivity | reflexivity | discriminate].
Defined.

(** ** Selecting and moving points *)

(** X7.  With no point set, two clicks in SETUP set the start and then the end;
    path and distance are not touched. *)
Theorem handleMapClick_twice (first second : LatLng) (st : State) :
  appState st = SETUP ->
  start (route st) = None -> end_ (route st) = None ->
  route (handleMapClick second (handleMapClick first st))
  = {| start := Some first; end_ := Some second;
       path := path (route st); distance := distance (route st) |}.
Proof.
  intros Ha Hs He. unfold handleMapClick at 2. rewrite Ha, Hs.
  unfold handleMapClick. cbn. rewrite Ha, He. reflexivity.
Qed.

Lemma handleMapClick_twice_witness :
  appState (handleMarkerClick MStart initialState) = SETUP /\
  start (route (handleMarkerClick MStart initialState)) = None /\
  end_ (route (handleMarkerClick MStart initialState)) = None /\
  route (handleMapClick {| lat := #3; lng := #4 |}
           (handleMapClick {| lat := #1; lng := #2 |}
              (handleMarkerClick MStart initialState)))
  = {| start := Some {| lat := #1; lng := #2 |};
       end_ := Some {| lat := #3; lng := #4 |};
       path := []; distance := #0 |}.
Proof.
  split; [reflexivity|]. split; [reflexivity|]. split; [reflexivity|].
  exact (handleMapClick_twice {| lat := #1; lng := #2 |} {| lat := #3; lng := #4 |}
           (handleMarkerClick MStart initialState) eq_refl eq_refl eq_refl).
Defined.



(** ** Starting the journey *)

(** X9.  [startJourney] never moves the points.  A call that does not end in
    TRACKING leaves phase, route and progress as they are; a call in SETUP
    that ends in TRACKING starts the progress afresh, at 0 km and 0. *)
Theorem startJourney_refused (net : FetchOutcome) (st : State) :
  start (route (startJourney net st)) = start (route st) /\
  end_ (route (startJourney net st)) = end_ (route st) /\
  (appState (startJourney net st) <> TRACKING ->
   appState (startJourney net st) = appState st /\
   route (startJourney net st) = route st /\
   progress (startJourney net st) = progress st) /\
  (appState st = SETUP -> appState (startJourney net st) = TRACKING ->
   currentKm (progress (startJourney net st)) = #0 /\
   percentage (progress (startJourney net st)) = #0).
Proof.
  unfold startJourney.
  destruct (start (route st)) as [s|] eqn:Hs;
    [|repeat split; try assumption; congruence].
  destruct (end_ (route st)) as [e|] eqn:He;
    [|repeat split; try assumption; congruence].
  destruct (distance (route st) >? #0).
  { cbn. split; [exact Hs|]. split; [exact He|].
    split; [intro H; contradiction | intros; split; reflexivity]. }
  destruct (fetchRoute s e net) as [coordinates dist | msg].
  { cbn. split; [exact Hs|]. split; [exact He|].
    split; [intro H; contradiction | intros; split; reflexivity]. }
  destruct (haversineDistance s e >? #0).
  { cbn. split; [exact Hs|]. split; [exact He|].
    split; [intro H; contradiction | intros; split; reflexivity]. }
  cbn. repeat split; try assumption; congruence.
Qed.

Lemma startJourney_refused_witness :
  appState (startJourney zeroLengthRoute initialState) <> TRACKING /\
  route (startJourney zeroLengthRoute initialState) = initialRoute /\
  progress (startJourney zeroLengthRoute initialState) = initialProgress /\
  appState readyState = SETUP /\
  appState (startJourney zeroLengthRoute readyState) = TRACKING /\
  currentKm (progress (startJourney zeroLengthRoute readyState)) = #0.
Proof.
  assert (H : appState (startJourney zeroLengthRoute initialState) <> TRACKING)
    by (cbn; discriminate).
  assert (T : appState (startJourney zeroLengthRoute readyState) = TRACKING)
    by (rewrite AppSpec.startJourney_zeroLengthRoute; reflexivity).
  destruct (startJourney_refused zeroLengthRoute initialState) as [_ [_ [R _]]].
  destruct (startJourney_refused zeroLengthRoute readyState) as [_ [_ [_ F]]].
  destruct (R H) as [_ [Rt Pr]].
  destruct (F eq_refl T) as [Km _].
  split; [exact H|]. split; [exact Rt|]. split; [exact Pr|].
  split; [reflexivity|]. split; [exact T | exact Km].
Defined.

(** X10.  The preview and the start compose: once the preview has stored a route
    of positive distance, the journey starts on that distance and that
    path, without a second fetch. *)
Theorem preview_then_startJourney
    (net net' : FetchOutcome) (st : State) (s e : LatLng)
    (coordinates : list LatLng) (dist : num) :
  appState st = SETUP -> isLoading st = false -> path (route st) = [] ->
  start (route st) = Some s -> end_ (route st) = Some e ->
  fetchRoute s e net = RouteOk coordinates dist ->
  (dist >? #0) = true ->
  appState (startJourney net' (calculatePreview net st)) = TRACKING /\
  progress (startJourney net' (calculatePreview net st))
  = {| currentKm := #0; totalKm := dist; percentage := #0 |} /\
  route (startJourney net' (calculatePreview net st))
  = {| start := Some s; end_ := Some e; path := coordinates; distance := dist |}.
Proof.
  intros Ha Hl Hp Hs He F Hd.
  assert (E : calculatePreview net st
              = setRoute (fun _ => {| start := Some s; end_ := Some e;
                                      path := coordinates; distance := dist |})
                  (setIsLoading false (setIsLoading true st))).
  { unfold calculatePreview. rewrite Hs, He, Ha, Hp, Hl, F. cbn.
    unfold setRoute. cbn. rewrite Hs, He. reflexivity. }
  rewrite E. unfold startJourney. cbn -[gtb]. rewrite Hd. cbn.
  repeat split.
Qed.

Lemma shortRoute_positive : (#1500 / #1000 >? #0) = true.
Proof. rewrite div_fin by lra. apply Rltb_true. lra. Qed.

Lemma preview_then_startJourney_witness :
  appState (handleMapClick rideEnd initialState) = SETUP /\
  (#1500 / #1000 >? #0) = true /\
  appState (startJourney (Rejected "offline")
              (calculatePreview shortRoute (handleMapClick rideEnd initialState)))
  = TRACKING /\
  progress (startJourney (Rejected "offline")
              (calculatePreview shortRoute (handleMapClick rideEnd initialState)))
  = {| currentKm := #0; totalKm := #1500 / #1000; percentage := #0 |}.
Proof.
  destruct (preview_then_startJourney shortRoute (Rejected "offline")
              (handleMapClick rideEnd initialState) defaultStart rideEnd
              [defaultStart; rideEnd] (#1500 / #1000)
              eq_refl eq_refl eq_refl eq_refl eq_refl eq_refl
              shortRoute_positive) as [A [P _]].
  split; [reflexivity|]. split; [exact shortRoute_positive|].
  split; [exact A | exact P].
Defined.

Lemma fetchRoute_failed (s e : LatLng) (net : FetchOutcome) :
  (exists msg, net = Rejected msg /\ msg <> EmptyString) \/
  (exists data, net = Responded data /\
                (code data <> "Ok"%string \/ no_routes data = true)) ->
  exists msg, fetchRoute s e net = RouteError msg.
Proof.
  intros [[msg [-> _]] | [data [-> H]]].
  - exists msg. reflexivity.
  - exists "No route found"%string. unfold fetchRoute. cbn [await_json bind].
    destruct (String.eqb (code data) "Ok") eqn:E; [|reflexivity].
    apply String.eqb_eq in E. destruct H as [H | H]; [contradiction|].
    rewrite H. reflexivity.
Qed.

(** X11.  The fallback.  With both points set and no distance computed before,
    when the request is rejected with a message that is not empty, or the
    service answers another code than "Ok" or no route: [startJourney]
    enters TRACKING on the straight-line distance if that is positive,
    leaving the route as it is; if it is not positive (the two points are
    the same), the phase stays as it is. *)
Theorem startJourney_fallback
    (net : FetchOutcome) (st : State) (s e : LatLng) :
  start (route st) = Some s -> end_ (route st) = Some e ->
  (distance (route st) >? #0) = false ->
  (exists msg, net = Rejected msg /\ msg <> EmptyString) \/
  (exists data, net = Responded data /\
                (code data <> "Ok"%string \/ no_routes data = true)) ->
  route (startJourney net st) = route st /\
  ((haversineDistance s e >? #0) = true ->
   appState (startJourney net st) = TRACKING /\
   progress (startJourney net st)
   = {| currentKm := #0; totalKm := haversineDistance s e; percentage := #0 |}) /\
  ((haversineDistance s e >? #0) = false ->
   appState (startJourney net st) = appState st /\
   progress (startJourney net st) = progress st).
Proof.
  intros Hs He Hd Hnet.
  destruct (fetchRoute_failed s e net Hnet) as [msg F].
  unfold startJourney. rewrite Hs, He, Hd, F.
  destruct (haversineDistance s e >? #0); cbn.
  - split; [reflexivity|].
    split; [intros _; split; reflexivity | intro H; discriminate].
  - split; [reflexivity|].
    split; [intro H; discriminate | intros _; split; reflexivity].
Qed.

Lemma startJourney_fallback_witness :
  (distance (route (handleMapClick defaultStart initialState)) >? #0) = false /\
  (haversineDistance defaultStart defaultStart >? #0) = false /\
  route (startJourney (Rejected "offline") (handleMapClick defaultStart initialState))
  = route (handleMapClick defaultStart initialState) /\
  appState (startJourney (Rejected "offline")
              (handleMapClick defaultStart initialState)) = SETUP /\
  (haversineDistance {| lat := #0; lng := #0 |} {| lat := #0; lng := #180 |} >? #0)
  = true /\
  appState (startJourney (Rejected "offline")
    {| appState := SETUP;
       route := {| start := Some {| lat := #0; lng := #0 |};
                   end_ := Some {| lat := #0; lng := #180 |};
                   path := []; distance := #0 |};
       progress := initialProgress;
       inputKm := ""; showCelebration := false; isLoading := false |})
  = TRACKING.
Proof.
  assert (D : (distance (route (handleMapClick defaultStart initialState)) >? #0)
              = false) by apply gtb_irrefl.
  assert (Z : (haversineDistance defaultStart defaultStart >? #0) = false).
  { rewrite haversineDistance_unfold.
    unfold defaultStart. rewrite haversineOf_self, distanceOf_zero.
    apply gtb_irrefl. }
  assert (P : (haversineDistance {| lat := #0; lng := #0 |}
                 {| lat := #0; lng := #180 |} >? #0) = true).
  { rewrite haversineDistance_half_turn. apply Rltb_true.
    assert (HP := PI_RGT_0). lra. }
  assert (Off : (exists msg, Rejected "offline" = Rejected msg
                             /\ msg <> EmptyString) \/
                (exists data, Rejected "offline" = Responded data /\
                   (code data <> "Ok"%string \/ no_routes data = true))).
  { left. exists "offline"%string. split; [reflexivity | discriminate]. }
  destruct (startJourney_fallback (Rejected "offline")
              (handleMapClick defaultStart initialState)
              defaultStart defaultStart eq_refl eq_refl D Off)
    as [R [_ Stay]].
  destruct (startJourney_fallback (Rejected "offline")
    {| appState := SETUP;
       route := {| start := Some {| lat := #0; lng := #0 |};
                   end_ := Some {| lat := #0; lng := #180 |};
                   path := []; distance := #0 |};
       progress := initialProgress;
       inputKm := ""; showCelebration := false; isLoading := false |}
    {| lat := #0; lng := #0 |} {| lat := #0; lng := #180 |}
    eq_refl eq_refl (gtb_irrefl #0) Off) as [_ [Go _]].
  split; [exact D|]. split; [exact Z|]. split; [exact R|].
  split; [apply (Stay Z)|]. split; [exact P|].
  apply (Go P).
Defined.

(** ** Invariants of a session *)

Lemma addDistance_cases (parseFloat : string -> num) (st : State) :
  addDistance parseFloat st = st \/
  (parseFloat (inputKm st) >? #0) = true /\
  addDistance parseFloat st
  = setAppState CELEBRATION
      (setInputKm ""
         (setProgress (fun prev =>
            let newCurrent :=
              Math_min (currentKm prev + parseFloat (inputKm st)) (totalKm prev) in
            {| currentKm := newCurrent;
               percentage := newCurrent / totalKm prev;
               totalKm := totalKm prev |}) st)).
Proof.
  unfold addDistance.
  destruct (negb (isNaN (parseFloat (inputKm st)))) eqn:N; [|left; reflexivity].
  destruct (parseFloat (inputKm st) >? #0) eqn:G; [|left; reflexivity].
  right. split; reflexivity.
Qed.

Lemma clicks_idle_outside_SETUP
    (latlng : LatLng) (type : MarkerType) (st : State) :
  appState st <> SETUP ->
  handleMapClick latlng st = st /\ handleMarkerClick type st = st.
Proof.
  intro H. unfold handleMapClick, handleMarkerClick.
  destruct (appState st); [contradiction | |]; split; reflexivity.
Qed.

(** ** A click while the request of [startJourney] is pending *)

(** [startJourney], which runs the request and its answer in one step, is
    [startJourneyRequest] followed at once by [startJourneyAnswer], for
    every answer but an error with an empty message. *)
Lemma startJourney_in_one_step (net : FetchOutcome) (st : State) :
  (forall s e : LatLng, fetchRoute s e net <> RouteError EmptyString) ->
  match startJourneyRequest st with
  | (st', Some closure) =>
      startJourneyAnswer closure net st' = Some (startJourney net st)
  | (st', None) => st' = startJourney net st
  end.
Proof.
  intro H. unfold startJourneyRequest, startJourneyAnswer, startJourney.
  destruct (start (route st)) as [s|]; [|reflexivity].
  destruct (end_ (route st)) as [e|]; [|reflexivity].
  destruct (distance (route st) >? #0); [reflexivity|].
  cbn [fst snd]. specialize (H s e).
  destruct (fetchRoute s e net) as [coordinates dist | msg]; [reflexivity|].
  destruct msg as [| c msg']; [contradiction H; reflexivity|].
  cbn [String.eqb]. destruct (haversineDistance s e >? #0); reflexivity.
Qed.

(** X12.  A click on a marker while the request of [startJourney] is pending.
    In SETUP with both points set and no positive distance, [startJourney]
    sends a request and the markers stay active.  A click on a marker before
    the answer removes that point; when the service then answers with a
    route, the journey is tracked on that route without the point: TRACKING
    is entered with a start or an end that is [null]. *)
Theorem marker_click_while_startJourney_pending
    (st : State) (s e : LatLng) (type : MarkerType) (net : FetchOutcome)
    (coordinates : list LatLng) (dist : num) :
  appState st = SETUP ->
  start (route st) = Some s -> end_ (route st) = Some e ->
  (distance (route st) >? #0) = false ->
  fetchRoute s e net = RouteOk coordinates dist ->
  snd (startJourneyRequest st) = Some (s, e) /\
  isLoading (fst (startJourneyRequest st)) = true /\
  exists st' : State,
    startJourneyAnswer (s, e) net
      (handleMarkerClick type (fst (startJourneyRequest st))) = Some st' /\
    appState st' = TRACKING /\
    route st'
    = {| start := match type with MStart => None | MEnd => Some s end;
         end_ := match type with MEnd => None | MStart => Some e end;
         path := coordinates; distance := dist |} /\
    progress st' = {| currentKm := #0; totalKm := dist; percentage := #0 |}.
Proof.
  intros Ha Hs He Hd F.
  assert (R : startJourneyRequest st = (setIsLoading true st, Some (s, e)))
    by (unfold startJourneyRequest; rewrite Hs, He, Hd; reflexivity).
  rewrite R. cbn [fst snd].
  split; [reflexivity|]. split; [reflexivity|].
  unfold startJourneyAnswer. cbn [fst snd]. rewrite F.
  eexists. split; [reflexivity|].
  unfold handleMarkerClick. cbn [appState setIsLoading]. rewrite Ha.
  cbn. rewrite Hs, He. repeat split.
Qed.

Lemma marker_click_while_startJourney_pending_witness :
  appState readyState = SETUP /\
  (distance (route readyState) >? #0) = false /\
  exists st' : State,
    startJourneyAnswer (defaultStart, rideEnd) shortRoute
      (handleMarkerClick MEnd (fst (startJourneyRequest readyState))) = Some st' /\
    appState st' = TRACKING /\
    end_ (route st') = None.
Proof.
  assert (D : (distance (route readyState) >? #0) = false)
    by (rewrite AppSpec.readyState_eq; apply gtb_irrefl).
  split; [rewrite AppSpec.readyState_eq; reflexivity|]. split; [exact D|].
  destruct (marker_click_while_startJourney_pending
              readyState defaultStart rideEnd MEnd shortRoute
              [defaultStart; rideEnd] (#1500 / #1000))
    as [_ [_ [st' [A [T [R _]]]]]];
    try (rewrite AppSpec.readyState_eq; reflexivity); [exact D | reflexivity |].
  exists st'. split; [exact A|]. split; [exact T|]. rewrite R. reflexivity.
Defined.

(** ** The bounds of the progress *)

Lemma leb_zero_sum (x a : num) :
  (#0 <=? x) = true -> (a >? #0) = true -> (#0 <=? x + a) = true.
Proof.
  destruct x, a; unfold gtb; simpl; intros Hx Ha;
    try reflexivity; try discriminate; rdec.
Qed.

Lemma Math_min_lower (z x y : num) :
  (z <=? x) = true -> (z <=? y) = true -> (z <=? Math_min x y) = true.
Proof.
  intros Hx Hy.
  assert (Nx : isNaN x = false) by (destruct z, x; try discriminate; reflexivity).
  assert (Ny : isNaN y = false) by (destruct z, y; try discriminate; reflexivity).
  rewrite (Math_min_cases x y Nx Ny). destruct (x <=? y); assumption.
Qed.

Lemma geb_not_NaN (x y : num) : (x >=? y) = true -> isNaN x = false.
Proof. destruct x, y; intro H; try reflexivity; discriminate. Qed.

Lemma leb_not_NaN_r (x y : num) : (x <=? y) = true -> isNaN y = false.
Proof. destruct x, y; intro H; try reflexivity; discriminate. Qed.

Lemma reachable_progress_bounds (parseFloat : string -> num) (st : State) :
  reachable parseFloat st ->
  (totalKm (progress st) >=? #0) = true ->
  (#0 <=? currentKm (progress st)) = true /\
  (currentKm (progress st) <=? totalKm (progress st)) = true.
Proof.
  induction 1 as [| st st' R IH S]; intro Ht.
  { split; apply Rleb_true; lra. }
  destruct S as [latlng st | st Hs | st He | net st | net st Ha He Hl
                 | st Hr | s st Ha | st Ha Hi | st Ha Hc].
  - destruct (handleMapClick_frame latlng st) as [_ [P _]].
    rewrite P in *. exact (IH Ht).
  - destruct (handleMarkerClick_frame MStart st) as [_ [P _]].
    rewrite P in *. exact (IH Ht).
  - destruct (handleMarkerClick_frame MEnd st) as [_ [P _]].
    rewrite P in *. exact (IH Ht).
  - destruct (calculatePreview_keeps net st) as [_ [P _]].
    rewrite P in *. exact (IH Ht).
  - revert Ht. unfold startJourney.
    destruct (start (route st)) as [s|]; [|exact IH].
    destruct (end_ (route st)) as [e|]; [|exact IH].
    assert (Fresh : forall t : num,
               (t >=? #0) = true -> (#0 <=? #0) = true /\ (#0 <=? t) = true).
    { intros t H. split; [apply Rleb_true; lra | exact H]. }
    destruct (distance (route st) >? #0); [cbn -[geb leb]; apply Fresh|].
    destruct (fetchRoute s e net); [cbn -[geb leb]; apply Fresh|].
    destruct (haversineDistance s e >? #0); [cbn -[geb leb]; apply Fresh|].
    exact IH.
  - split; apply Rleb_true; lra.
  - exact (IH Ht).
  - destruct (addDistance_cases parseFloat st) as [E | [Hpos E]];
      rewrite E in *; [exact (IH Ht)|].
    cbn -[geb leb Math_min add] in Ht |- *.
    destruct (IH Ht) as [L U].
    assert (Z : (#0 <=? currentKm (progress st) + parseFloat (inputKm st)) = true)
      by (apply leb_zero_sum; assumption).
    split.
    + apply Math_min_lower; [exact Z | exact Ht].
    + apply Math_min_le; [exact (leb_not_NaN_r _ _ Z) | exact (geb_not_NaN _ _ Ht)].
  - exact (IH Ht).
Qed.

(** X14.  In every state of a session whose [totalKm] is not negative,
    [currentKm] is between 0 and [totalKm]. *)
Theorem progress_within_total (parseFloat : string -> num) (st : State) :
  reachable parseFloat st ->
  (totalKm (progress st) >=? #0) = true ->
  (#0 <=? currentKm (progress st)) = true /\
  (currentKm (progress st) <=? totalKm (progress st)) = true.
Proof. apply reachable_progress_bounds. Qed.

(** X15.  In every state of a session whose [totalKm] is a positive finite
    number, [percentage] is between 0 and 1. *)
Theorem percentage_within_unit (parseFloat : string -> num) (st : State) :
  reachable parseFloat st ->
  (totalKm (progress st) >? #0) = true ->
  is_fin (totalKm (progress st)) = true ->
  (#0 <=? percentage (progress st)) = true /\
  (percentage (progress st) <=? #1) = true.
Proof.
  intros R Hpos Hfin.
  rewrite (AppSpec.percentage_of_positive_total parseFloat st R Hpos).
  destruct (reachable_progress_bounds parseFloat st R (gtb_geb _ _ Hpos)) as [L U].
  destruct (totalKm (progress st)) as [t | | |]; try discriminate.
  destruct (currentKm (progress st)) as [c | | |]; try discriminate.
  unfold gtb in Hpos. cbn [ltb leb] in Hpos, L, U.
  apply Rltb_true in Hpos. apply Rleb_true in L. apply Rleb_true in U.
  rewrite div_fin by lra. cbn [leb].
  split; apply Rleb_true.
  - apply Rmult_le_pos; [lra|]. left. apply Rinv_0_lt_compat. lra.
  - apply Rmult_le_reg_r with t; [lra|].
    replace (c / t * t)%R with c by (field; lra). lra.
Qed.

Lemma riding_progress :
  progress (startJourney (Rejected "offline")
              (calculatePreview shortRoute (handleMapClick rideEnd initialState)))
  = {| currentKm := #0; totalKm := #(1500 / 1000); percentage := #0 |}.
Proof.
  unfold startJourney, calculatePreview. cbn -[div gtb].
  rewrite shortRoute_positive. cbn -[div]. rewrite div_fin by lra. reflexivity.
Qed.

Lemma reachable_riding (parseFloat : string -> num) :
  reachable parseFloat
    (startJourney (Rejected "offline")
       (calculatePreview shortRoute (handleMapClick rideEnd initialState))).
Proof.
  eapply reachable_step.
  - eapply reachable_step.
    + eapply reachable_step; [apply reachable_initial|].
      apply (step_mapClick parseFloat rideEnd).
    + apply (step_preview parseFloat shortRoute).
  - apply step_startJourney; [reflexivity | cbn; discriminate | reflexivity].
Qed.

(** The ride of 1.5 km, and the state after 1 km has been entered and
    added. *)
Lemma ridingState_phase : appState ridingState = TRACKING.
Proof.
  unfold ridingState, startJourney, calculatePreview. cbn -[div gtb].
  rewrite shortRoute_positive. reflexivity.
Qed.

Lemma afterOneKm_progress :
  progress afterOneKm
  = {| currentKm := #1; totalKm := #(1500 / 1000);
       percentage := #(1 / (1500 / 1000)) |}.
Proof.
  unfold afterOneKm, addDistance. cbn [inputKm setInputKm].
  change (Builtins.parseFloat "1") with #(1 * 1).
  replace (#(1 * 1) >? #0) with true by (symmetry; apply Rltb_true; lra).
  cbn [isNaN negb andb setAppState setInputKm setProgress progress].
  change (progress ridingState)
    with (progress (startJourney (Rejected "offline")
            (calculatePreview shortRoute (handleMapClick rideEnd initialState)))).
  rewrite riding_progress. cbn [currentKm totalKm add Math_min leb].
  replace (Rleb (0 + 1 * 1) (1500 / 1000)) with true
    by (symmetry; apply Rleb_true; lra).
  rewrite div_fin by lra.
  f_equal; apply Fin_eq; lra.
Qed.

Lemma reachable_afterOneKm : reachable Builtins.parseFloat afterOneKm.
Proof.
  eapply reachable_step.
  - eapply reachable_step; [apply reachable_riding|].
    apply (step_input Builtins.parseFloat "1"). exact ridingState_phase.
  - apply step_addDistance; [exact ridingState_phase | discriminate].
Qed.

Lemma progress_within_total_witness :
  reachable Builtins.parseFloat afterOneKm /\
  currentKm (progress afterOneKm) = #1 /\
  totalKm (progress afterOneKm) = #(1500 / 1000) /\
  (totalKm (progress afterOneKm) >=? #0) = true /\
  (#0 <=? currentKm (progress afterOneKm)) = true /\
  (currentKm (progress afterOneKm) <=? totalKm (progress afterOneKm)) = true.
Proof.
  assert (T : (totalKm (progress afterOneKm) >=? #0) = true)
    by (rewrite afterOneKm_progress; apply Rleb_true; lra).
  split; [exact reachable_afterOneKm|].
  split; [rewrite afterOneKm_progress; reflexivity|].
  split; [rewrite afterOneKm_progress; reflexivity|].
  split; [exact T|].
  exact (progress_within_total Builtins.parseFloat afterOneKm
           reachable_afterOneKm T).
Defined.

Lemma percentage_within_unit_witness :
  reachable Builtins.parseFloat
    (startJourney (Rejected "offline")
       (calculatePreview shortRoute (handleMapClick rideEnd initialState))) /\
  (#0 <=? percentage (progress
     (startJourney (Rejected "offline")
        (calculatePreview shortRoute (handleMapClick rideEnd initialState)))))
  = true /\
  (percentage (progress
     (startJourney (Rejected "offline")
        (calculatePreview shortRoute (handleMapClick rideEnd initialState))))
   <=? #1) = true.
Proof.
  split; [apply reachable_riding|].
  apply (percentage_within_unit Builtins.parseFloat _
           (reachable_riding Builtins.parseFloat)).
  - rewrite riding_progress. apply Rltb_true. lra.
  - rewrite riding_progress. reflexivity.
Defined.

(** ** Adding distance, again *)

Lemma leb_sum_positive (x a : num) :
  is_fin x = true -> (a >? #0) = true -> (x <=? x + a) = true.
Proof.
  destruct x, a; unfold gtb; simpl; intros Hx Ha;
    try reflexivity; try discriminate; rdec.
Qed.

(** X16.  Progress never goes back: with a finite [currentKm] that does not
    exceed [totalKm], [addDistance] does not lower [currentKm], whatever the
    input. *)
Theorem addDistance_never_back (parseFloat : string -> num) (st : State) :
  is_fin (currentKm (progress st)) = true ->
  (currentKm (progress st) <=? totalKm (progress st)) = true ->
  (currentKm (progress st) <=? currentKm (progress (addDistance parseFloat st)))
  = true.
Proof.
  intros Hf Hle.
  destruct (addDistance_cases parseFloat st) as [E | [Hpos E]]; rewrite E.
  - apply leb_refl. destruct (currentKm (progress st)); try discriminate.
    reflexivity.
  - cbn -[leb Math_min add].
    apply Math_min_lower; [apply leb_sum_positive; assumption | exact Hle].
Qed.

Lemma addDistance_never_back_witness :
  (#8 <=? #10) = true /\
  currentKm (progress (addDistance Builtins.parseFloat
    {| appState := TRACKING; route := initialRoute;
       progress := {| currentKm := #8; totalKm := #10; percentage := #(8 / 10) |};
       inputKm := "5"; showCelebration := false; isLoading := false |}))
  = #10 /\
  (#8 <=? currentKm (progress (addDistance Builtins.parseFloat
    {| appState := TRACKING; route := initialRoute;
       progress := {| currentKm := #8; totalKm := #10; percentage := #(8 / 10) |};
       inputKm := "5"; showCelebration := false; isLoading := false |})))
  = true /\
  (#8 <=? currentKm (progress (addDistance Builtins.parseFloat
    {| appState := TRACKING; route := initialRoute;
       progress := {| currentKm := #8; totalKm := #10; percentage := #(8 / 10) |};
       inputKm := "-3"; showCelebration := false; isLoading := false |})))
  = true.
Proof.
  assert (L : (#8 <=? #10) = true) by (apply Rleb_true; lra).
  split; [exact L|].
  split; [rewrite AppSpec.addDistance_clamps; reflexivity|].
  split.
  - exact (addDistance_never_back Builtins.parseFloat
      {| appState := TRACKING; route := initialRoute;
         progress := {| currentKm := #8; totalKm := #10; percentage := #(8 / 10) |};
         inputKm := "5"; showCelebration := false; isLoading := false |}
      eq_refl L).
  - exact (addDistance_never_back Builtins.parseFloat
      {| appState := TRACKING; route := initialRoute;
         progress := {| currentKm := #8; totalKm := #10; percentage := #(8 / 10) |};
         inputKm := "-3"; showCelebration := false; isLoading := false |}
      eq_refl L).
Defined.

(** X17.  Reaching the goal.  For a positive finite [totalKm] and a valid input:
    when [currentKm] plus the increment reaches [totalKm], [currentKm]
    becomes exactly [totalKm], [percentage] exactly 1, and the celebration
    offers the reset; when it does not, [currentKm] is the sum and the
    celebration offers the way back to the map. *)
Theorem addDistance_goal (parseFloat : string -> num) (st : State) (t : R) :
  totalKm (progress st) = #t -> (0 < t)%R ->
  (parseFloat (inputKm st) >? #0) = true ->
  ((currentKm (progress st) + parseFloat (inputKm st) >=? #t) = true ->
   progress (addDistance parseFloat st)
   = {| currentKm := #t; totalKm := #t; percentage := #1 |} /\
   resetShown (addDistance parseFloat st) = true) /\
  ((currentKm (progress st) + parseFloat (inputKm st) <? #t) = true ->
   currentKm (progress (addDistance parseFloat st))
   = currentKm (progress st) + parseFloat (inputKm st) /\
   resetShown (addDistance parseFloat st) = false).
Proof.
  intros Ht Hpos Ha. unfold addDistance.
  rewrite (gtb_not_NaN _ _ Ha), Ha. cbn [negb andb].
  unfold resetShown.
  cbn [appState setAppState setInputKm setProgress progress currentKm totalKm
       percentage].
  rewrite Ht.
  set (x := currentKm (progress st) + parseFloat (inputKm st)).
  split; intro H.
  - assert (M : Math_min x #t = #t).
    { destruct x as [v | | |]; try discriminate; [|reflexivity].
      unfold geb in H. cbn [leb] in H. apply Rleb_true in H. cbn [Math_min leb].
      destruct (Rleb v t) eqn:L; [|reflexivity].
      apply Rleb_true in L. apply Fin_eq. lra. }
    rewrite M. rewrite div_fin by lra.
    replace (t / t)%R with 1%R by (field; lra).
    split; [reflexivity | apply Rleb_true; lra].
  - assert (M : Math_min x #t = x).
    { destruct x as [v | | |]; try discriminate; [|reflexivity].
      cbn [ltb] in H. apply Rltb_true in H. cbn [Math_min leb].
      replace (Rleb v t) with true by (symmetry; apply Rleb_true; lra).
      reflexivity. }
    rewrite M. split; [reflexivity|].
    destruct x as [v | | |]; try discriminate.
    + cbn [ltb] in H. apply Rltb_true in H. unfold geb. cbn [leb].
      apply Rleb_false. exact H.
    + reflexivity.
Qed.

Lemma addDistance_goal_witness :
  (Builtins.parseFloat "5" >? #0) = true /\
  (#8 + Builtins.parseFloat "5" >=? #10) = true /\
  progress (addDistance Builtins.parseFloat
    {| appState := TRACKING; route := initialRoute;
       progress := {| currentKm := #8; totalKm := #10; percentage := #(8 / 10) |};
       inputKm := "5"; showCelebration := false; isLoading := false |})
  = {| currentKm := #10; totalKm := #10; percentage := #1 |} /\
  resetShown (addDistance Builtins.parseFloat
    {| appState := TRACKING; route := initialRoute;
       progress := {| currentKm := #8; totalKm := #10; percentage := #(8 / 10) |};
       inputKm := "5"; showCelebration := false; isLoading := false |})
  = true.
Proof.
  assert (Hpos : (Builtins.parseFloat "5" >? #0) = true).
  { rewrite AppSpec.parseFloat_5. apply Rltb_true. lra. }
  assert (Hge : (#8 + Builtins.parseFloat "5" >=? #10) = true).
  { rewrite AppSpec.parseFloat_5. apply Rleb_true. lra. }
  assert (Ten : (0 < 10)%R) by lra.
  destruct (addDistance_goal Builtins.parseFloat
    {| appState := TRACKING; route := initialRoute;
       progress := {| currentKm := #8; totalKm := #10; percentage := #(8 / 10) |};
       inputKm := "5"; showCelebration := false; isLoading := false |}
    10 eq_refl Ten Hpos) as [Reached _].
  split; [exact Hpos|]. split; [exact Hge|].
  exact (Reached Hge).
Defined.

(** ** The end of a journey *)

(** X18.  Once the goal is reached, the journey goes on only through a reset: in
    CELEBRATION with [currentKm] at [totalKm], every event the page allows
    leaves the state as it is or resets it. *)
Theorem goal_reached_only_reset
    (parseFloat : string -> num) (st st' : State) :
  appState st = CELEBRATION ->
  (currentKm (progress st) >=? totalKm (progress st)) = true ->
  step parseFloat st st' ->
  st' = st \/ st' = resetRoute st.
Proof.
  intros Ha Hg S.
  assert (N : appState st <> SETUP) by (rewrite Ha; discriminate).
  destruct S as [latlng st | st Hs | st He | net st | net st Ha' He Hl
                 | st Hr | s st Ha' | st Ha' Hi | st Ha' Hc].
  - left. apply (clicks_idle_outside_SETUP latlng MStart st N).
  - left. apply (clicks_idle_outside_SETUP defaultStart MStart st N).
  - left. apply (clicks_idle_outside_SETUP defaultStart MEnd st N).
  - left. apply calculatePreview_idle. left. exact N.
  - congruence.
  - right. reflexivity.
  - congruence.
  - congruence.
  - congruence.
Qed.

Lemma goal_reached_only_reset_witness :
  (#10 >=? #10) = true /\
  (handleMapClick rideEnd
     {| appState := CELEBRATION; route := initialRoute;
        progress := {| currentKm := #10; totalKm := #10; percentage := #1 |};
        inputKm := ""; showCelebration := false; isLoading := false |}
   = {| appState := CELEBRATION; route := initialRoute;
        progress := {| currentKm := #10; totalKm := #10; percentage := #1 |};
        inputKm := ""; showCelebration := false; isLoading := false |} \/
   handleMapClick rideEnd
     {| appState := CELEBRATION; route := initialRoute;
        progress := {| currentKm := #10; totalKm := #10; percentage := #1 |};
        inputKm := ""; showCelebration := false; isLoading := false |}
   = resetRoute
       {| appState := CELEBRATION; route := initialRoute;
          progress := {| currentKm := #10; totalKm := #10; percentage := #1 |};
          inputKm := ""; showCelebration := false; isLoading := false |}).
Proof.
  assert (G : (#10 >=? #10) = true) by (apply Rleb_true; lra).
  split; [exact G|].
  apply (goal_reached_only_reset Builtins.parseFloat
    {| appState := CELEBRATION; route := initialRoute;
       progress := {| currentKm := #10; totalKm := #10; percentage := #1 |};
       inputKm := ""; showCelebration := false; isLoading := false |}
    _ eq_refl G).
  apply step_mapClick.
Defined.

End AppMore.

(* ================================================================== *)
(** * The file-backed store *)
(* ================================================================== *)

Module ServerFacts.

Import Server.
Local Open Scope string_scope.

Lemma own_assign_same (obj : list (string * Json)) (key : string) (v : Json) :
  own (assign obj key v) key = Some v.
Proof.
  induction obj as [| [k old] rest IH]; cbn.
  - rewrite String.eqb_refl. reflexivity.
  - destruct (String.eqb k key) eqn:E; cbn; rewrite E; [reflexivity | exact IH].
Qed.


Lemma assign_assign (obj : list (string * Json)) (key : string) (v w : Json) :
  assign (assign obj key v) key w = assign obj key w.
Proof.
  induction obj as [| [k old] rest IH]; cbn.
  - rewrite String.eqb_refl. reflexivity.
  - destruct (String.eqb k key) eqn:E; cbn; rewrite E; [reflexivity|].
    rewrite IH. reflexivity.
Qed.

Lemma setProperty_stores (obj : list (string * Json)) (key : string) (v : Json) :
  stores obj key -> setProperty obj key v = assign obj key v.
Proof.
  intro H. unfold setProperty.
  destruct (String.eqb key "__proto__") eqn:E; [|reflexivity].
  apply String.eqb_eq in E.
  destruct (own obj key) eqn:O; [reflexivity|].
  destruct H as [H | H]; congruence.
Qed.


(** A value without [NaN] and infinite numbers comes back from the file as
    it was written. *)
Lemma roundTrip_jsonSafe : forall v : Json, jsonSafe v = true -> roundTrip v = v.
Proof.
  fix IH 1. intros [| b | n | s | items | fields] H; cbn in *; try reflexivity.
  - rewrite H. reflexivity.
  - f_equal. induction items as [| x tl IHl]; [reflexivity|].
    cbn in H. apply andb_true_iff in H. destruct H as [Hx Ht].
    cbn. rewrite (IH x Hx), (IHl Ht). reflexivity.
  - f_equal. induction fields as [| [k x] tl IHl]; [reflexivity|].
    cbn in H. apply andb_true_iff in H. destruct H as [Hx Ht].
    cbn. rewrite (IH x Hx), (IHl Ht). reflexivity.
Qed.

(** X19.  For a file that is missing or unreadable, or holds an object with a
    [userData] object, and a body without [NaN] and infinite numbers: the
    body comes back from the file as it was written, and what is posted for
    a user, under any id but ["__proto__"], is what is read back for that
    user, whatever was stored for that user before; a falsy body reads back
    as the default state. *)
Theorem postUser_getUser (userId : string) (body : Json) (file : File) :
  userId <> "__proto__" ->
  jsonSafe body = true ->
  roundTrip body = body /\
  getUser userId (fst (postUser userId body file))
  = Sent (if truthy body then body else defaultUser).
Proof.
  intros H Safe. split; [exact (roundTrip_jsonSafe body Safe)|].
  unfold getUser, postUser, getProperty.
  cbn [fst readDb writeDb userData].
  rewrite setProperty_stores by (left; exact H).
  rewrite own_assign_same. destruct (truthy body); reflexivity.
Qed.

Lemma postUser_getUser_witness :
  getUser "user1"
    (fst (postUser "user1"
            (JObject [("appState", JString "TRACKING");
                      ("progress", JObject [("currentKm", JNumber #8)])])
            (Holds {| profiles := None;
                      userData := [("user1", JObject []); ("user2", JNull)] |})))
  = Sent (JObject [("appState", JString "TRACKING");
                   ("progress", JObject [("currentKm", JNumber #8)])]).
Proof.
  apply (postUser_getUser "user1"
           (JObject [("appState", JString "TRACKING");
                     ("progress", JObject [("currentKm", JNumber #8)])])
           (Holds {| profiles := None;
                     userData := [("user1", JObject []); ("user2", JNull)] |})).
  - discriminate.
  - reflexivity.
Defined.



(** X21.  The last state posted for a user wins: posting twice leaves the file
    that posting the second state alone leaves. *)
Theorem postUser_last_wins (userId : string) (first second : Json) (file : File) :
  fst (postUser userId second (fst (postUser userId first file)))
  = fst (postUser userId second file).
Proof.
  unfold postUser. cbn [fst readDb writeDb userData profiles].
  f_equal. f_equal. unfold setProperty.
  destruct (String.eqb userId "__proto__").
  - destruct (own (userData (readDb file)) userId) eqn:O.
    + rewrite own_assign_same. apply assign_assign.
    + rewrite O. reflexivity.
  - apply assign_assign.
Qed.

(** X22.  A user without stored state: the default state is sent, unless the id
    is a name every object inherits; then the inherited member is what
    [res.json] gets, not the default.  Without a readable file the profiles
    are the empty list and every user is without state. *)
Theorem getUser_missing (userId : string) (file : File) :
  own (userData (readDb file)) userId = None ->
  (inherited userId = false -> getUser userId file = Sent defaultUser) /\
  (inherited userId = true -> getUser userId file = SentInherited userId) /\
  own (userData (readDb Unreadable)) userId = None /\
  getProfiles Unreadable = Sent (JArray []).
Proof.
  intro H. unfold getUser, getProperty. rewrite H.
  repeat split; intros ->; reflexivity.
Qed.

Lemma getUser_missing_witness :
  getUser "user1" Unreadable = Sent defaultUser /\
  getUser "constructor" Unreadable = SentInherited "constructor".
Proof.
  split.
  - apply (getUser_missing "user1" Unreadable); reflexivity.
  - apply (getUser_missing "constructor" Unreadable); reflexivity.
Defined.

(** X23.  State posted for the user id ["__proto__"] is not stored: the data of
    the file is as before, and reading that user back gives the inherited
    member, not the body. *)
Theorem postUser_proto_lost (body : Json) (file : File) :
  own (userData (readDb file)) "__proto__" = None ->
  fst (postUser "__proto__" body file) = Holds (readDb file) /\
  getUser "__proto__" (fst (postUser "__proto__" body file))
  = SentInherited "__proto__".
Proof.
  intro H. unfold postUser, getUser, getProperty, setProperty.
  cbn [fst readDb writeDb userData profiles String.eqb Ascii.eqb Bool.eqb].
  cbn. rewrite H. cbn. rewrite H.
  split; [|reflexivity].
  destruct (readDb file); reflexivity.
Qed.

Lemma postUser_proto_lost_witness :
  getUser "__proto__" (fst (postUser "__proto__" (JObject []) Unreadable))
  = SentInherited "__proto__".
Proof.
  apply (postUser_proto_lost (JObject []) Unreadable). reflexivity.
Defined.

Lemma own_jsonSafe (obj : list (string * Json)) (key : string) (v : Json) :
  forallb (fun kv => jsonSafe (snd kv)) obj = true ->
  own obj key = Some v -> jsonSafe v = true.
Proof.
  induction obj as [| [k x] rest IH]; cbn; intros S O; [discriminate|].
  apply andb_true_iff in S. destruct S as [Sx Sr].
  destruct (String.eqb k key); [congruence | exact (IH Sr O)].
Qed.

(** X24.  For a file that is missing or unreadable, or holds an object with a
    [userData] object and no [NaN] or infinite number, and a body without
    such numbers: the body and every stored state come back from the file
    as they were written, the profiles that are posted are the profiles that
    are read back (the empty list for a falsy body), and the state of every
    user is as before. *)
Theorem postProfiles_getProfiles (body : Json) (file : File) :
  jsonSafe body = true ->
  fileSafe file = true ->
  roundTrip body = body /\
  (forall (userId : string) (v : Json),
      own (userData (readDb file)) userId = Some v -> roundTrip v = v) /\
  getProfiles (fst (postProfiles body file))
  = Sent (if truthy body then body else JArray []) /\
  forall userId : string,
    getUser userId (fst (postProfiles body file)) = getUser userId file.
Proof.
  intros Safe FSafe. split; [exact (roundTrip_jsonSafe body Safe)|].
  split.
  { intros userId v O. apply roundTrip_jsonSafe.
    destruct file as [| db]; [discriminate|].
    cbn in FSafe, O. apply andb_true_iff in FSafe.
    exact (own_jsonSafe _ _ _ (proj2 FSafe) O). }
  split; [|intro userId; reflexivity].
  unfold getProfiles, postProfiles, orEmpty. cbn. reflexivity.
Qed.

Lemma postProfiles_getProfiles_witness :
  getProfiles
    (fst (postProfiles (JArray [JObject [("id", JString "user1")]])
            (Holds {| profiles := Some (JArray []);
                      userData := [("user1", JObject [("km", JNumber #8)])] |})))
  = Sent (JArray [JObject [("id", JString "user1")]]) /\
  getUser "user1"
    (fst (postProfiles (JArray [JObject [("id", JString "user1")]])
            (Holds {| profiles := Some (JArray []);
                      userData := [("user1", JObject [("km", JNumber #8)])] |})))
  = Sent (JObject [("km", JNumber #8)]).
Proof.
  destruct (postProfiles_getProfiles
              (JArray [JObject [("id", JString "user1")]])
              (Holds {| profiles := Some (JArray []);
                        userData := [("user1", JObject [("km", JNumber #8)])] |})
              eq_refl eq_refl) as [_ [_ [P U]]].
  split; [exact P|]. rewrite U. reflexivity.
Defined.

End ServerFacts.
